(** * pytwot: payload normalisation, webhook events and pagination cursors

    A shallow embedding of the parts of [pytwot/utils.py], [pytwot/parser.py],
    [pytwot/events.py] and [pytwot/paginations.py] that reshape JSON payloads,
    classify webhook deliveries and step through cursor-paginated listings.

    Python values are modelled as a JSON-like tree ([value]); a [dict] is an
    association list kept in insertion order, as CPython keeps it.  Exceptions
    are values of [exn]; code that can raise returns a [result]; code that
    mutates an object threads that object's contents through a state monad, so
    that what is left behind by a call that raises half-way is visible. *)

From Stdlib Require Import ZArith String Ascii List Lia.
From Stdlib Require Import Floats.SpecFloat.
From stdpp Require Import base option list strings gmap.

Set Warnings "-register-all".
Local Open Scope string_scope.
Local Open Scope Z_scope.
Local Open Scope list_scope.

(** ** Exceptions and results *)

(** The exception classes that the modelled code can raise or let through.
    [TransportError] stands for whatever the HTTP collaborator raises. *)
Inductive exn : Type :=
| NoPageAvailable
| AttributeError
| TypeError
| KeyError
| IndexError
| ValueError
| OverflowError
| TransportError (name : string).

Inductive result (A : Type) : Type :=
| Ok (a : A)
| Raise (e : exn).
Arguments Ok {A} a.
Arguments Raise {A} e.

Definition rbind {A B : Type} (r : result A) (k : A -> result B) : result B :=
  match r with
  | Ok a => k a
  | Raise e => Raise e
  end.

Notation "'let?' x := c 'in' k" := (rbind c (fun x => k))
  (at level 10, x pattern, c at level 100, k at level 200).

(** Monadic traversals: a [for] loop or comprehension that stops at the first
    exception. *)
Fixpoint mapM {A B : Type} (f : A -> result B) (l : list A) : result (list B) :=
  match l with
  | [] => Ok []
  | x :: l' => let? y := f x in let? ys := mapM f l' in Ok (y :: ys)
  end.

Fixpoint foldM {A B : Type} (f : B -> A -> result B) (l : list A) (acc : B) : result B :=
  match l with
  | [] => Ok acc
  | x :: l' => let? acc' := f acc x in foldM f l' acc'
  end.

(** ** State and exceptions

    [M S A] is a computation over a mutable object with contents [S]: it
    returns normally or raises, and in both cases leaves a final state. *)
Definition M (S A : Type) : Type := S -> result A * S.

Definition ret {S A : Type} (a : A) : M S A := fun s => (Ok a, s).
Definition raise {S A : Type} (e : exn) : M S A := fun s => (Raise e, s).
Definition bind {S A B : Type} (m : M S A) (k : A -> M S B) : M S B :=
  fun s => match m s with
           | (Ok a, s') => k a s'
           | (Raise e, s') => (Raise e, s')
           end.
Definition get {S : Type} : M S S := fun s => (Ok s, s).
Definition put {S : Type} (s : S) : M S unit := fun _ => (Ok tt, s).
Definition modify {S : Type} (f : S -> S) : M S unit := fun s => (Ok tt, f s).
Definition lift {S A : Type} (r : result A) : M S A := fun s => (r, s).
Definition reads {S A : Type} (f : S -> result A) : M S A := fun s => (f s, s).
Definition updates {S : Type} (f : S -> result S) : M S unit :=
  fun s => match f s with
           | Ok s' => (Ok tt, s')
           | Raise e => (Raise e, s)
           end.

Notation "'let*' x := c 'in' k" := (bind c (fun x => k))
  (at level 10, x pattern, c at level 100, k at level 200).
Notation "c ';;' k" := (bind c (fun _ => k))
  (at level 100, k at level 200, right associativity).

(** ** Python dictionaries

    Insertion-ordered association lists.  [dict_set] is [d[k] = v]: an existing
    key keeps its position, a new key goes to the end. *)
Section pydict.
Context {K V : Type} `{EqDecision K}.

Fixpoint dict_get (d : list (K * V)) (k : K) : option V :=
  match d with
  | [] => None
  | (k', v) :: d' => if decide (k = k') then Some v else dict_get d' k
  end.

Fixpoint dict_set (d : list (K * V)) (k : K) (v : V) : list (K * V) :=
  match d with
  | [] => [(k, v)]
  | (k', v') :: d' =>
      if decide (k = k') then (k', v) :: d' else (k', v') :: dict_set d' k v
  end.

Definition dict_has (d : list (K * V)) (k : K) : bool :=
  match dict_get d k with Some _ => true | None => false end.

Definition dict_keys (d : list (K * V)) : list K := d.*1.
Definition dict_values (d : list (K * V)) : list V := d.*2.

(** A dictionary has each key once. *)
Definition dict_wf (d : list (K * V)) : Prop := NoDup d.*1.

(** [del d[k]] on a dictionary that has the key. *)
Fixpoint dict_del (d : list (K * V)) (k : K) : list (K * V) :=
  match d with
  | [] => []
  | (k', v') :: d' => if decide (k = k') then d' else (k', v') :: dict_del d' k
  end.
End pydict.

(** ** Values *)

(** JSON-like Python values.  A float is kept as its IEEE decomposition
    ([spec_float]); [VObject] is the builtin class [object] itself, which
    [utils.convert] hands back as its failure marker. *)
Inductive value : Type :=
| VNone
| VBool (b : bool)
| VInt (n : Z)
| VFloat (f : spec_float)
| VStr (s : string)
| VList (l : list value)
| VDict (d : list (string * value))
| VObject.

(** [bool(v)], as used by [if not v]. *)
Definition truthy (v : value) : bool :=
  match v with
  | VNone => false
  | VBool b => b
  | VInt n => negb (n =? 0)%Z
  | VFloat (S754_zero _) => false
  | VFloat _ => true
  | VStr s => negb (String.eqb s "")
  | VList l => match l with [] => false | _ => true end
  | VDict d => match d with [] => false | _ => true end
  | VObject => true
  end.

(** [o.get(k, dflt)] *)
Definition py_get (o : value) (k : string) (dflt : value) : result value :=
  match o with
  | VDict d => Ok (default dflt (dict_get d k))
  | _ => Raise AttributeError
  end.

(** [o[k]] with a string key *)
Definition py_getitem (o : value) (k : string) : result value :=
  match o with
  | VDict d => match dict_get d k with Some v => Ok v | None => Raise KeyError end
  | _ => Raise TypeError
  end.

(** [o[k] = v] with a string key *)
Definition py_setitem (o : value) (k : string) (v : value) : result value :=
  match o with
  | VDict d => Ok (VDict (dict_set d k v))
  | _ => Raise TypeError
  end.

(** [o[0]] *)
Definition py_first (o : value) : result value :=
  match o with
  | VList [] => Raise IndexError
  | VList (x :: _) => Ok x
  | VStr EmptyString => Raise IndexError
  | VStr (String c _) => Ok (VStr (String c EmptyString))
  | VDict _ => Raise KeyError
  | _ => Raise TypeError
  end.

Fixpoint chars (s : string) : list value :=
  match s with
  | EmptyString => []
  | String c s' => VStr (String c EmptyString) :: chars s'
  end.

(** The elements a [for] loop over [o] visits. *)
Definition py_iter (o : value) : result (list value) :=
  match o with
  | VList l => Ok l
  | VDict d => Ok (VStr <$> dict_keys d)
  | VStr s => Ok (chars s)
  | _ => Raise TypeError
  end.

(** [o.copy()] *)
Definition py_copy (o : value) : result value :=
  match o with
  | VDict d => Ok (VDict d)
  | VList l => Ok (VList l)
  | _ => Raise AttributeError
  end.

(** [o.keys()], [o.items()] *)
Definition py_keys (o : value) : result (list string) :=
  match o with
  | VDict d => Ok (dict_keys d)
  | _ => Raise AttributeError
  end.

Definition py_items (o : value) : result (list (string * value)) :=
  match o with
  | VDict d => Ok d
  | _ => Raise AttributeError
  end.

(** [k in o.keys()] *)
Definition py_in_keys (k : string) (o : value) : result bool :=
  match o with
  | VDict d => Ok (dict_has d k)
  | _ => Raise AttributeError
  end.

(** [del o[k]] with a string key *)
Definition py_delitem (o : value) (k : string) : result value :=
  match o with
  | VDict d => if dict_has d k then Ok (VDict (dict_del d k)) else Raise KeyError
  | _ => Raise TypeError
  end.

(** ** Text *)

(** [s.lower()] on ASCII text *)
Definition lower_char (c : ascii) : ascii :=
  let n := nat_of_ascii c in
  if ((65 <=? n) && (n <=? 90))%nat then ascii_of_nat (n + 32) else c.

Fixpoint lower (s : string) : string :=
  match s with
  | EmptyString => EmptyString
  | String c s' => String (lower_char c) (lower s')
  end.

(** [s.replace(c, new)] for a one-character pattern [c] *)
Fixpoint replace_char (c : ascii) (new : string) (s : string) : string :=
  match s with
  | EmptyString => EmptyString
  | String c' s' =>
      if Ascii.eqb c' c then (new ++ replace_char c new s')%string
      else String c' (replace_char c new s')
  end.

(** [o.lower()] and [o.replace(c, new)]: only strings have these methods. *)
Definition py_lower (o : value) : result string :=
  match o with
  | VStr s => Ok (lower s)
  | _ => Raise AttributeError
  end.

Definition py_replace (o : value) (c : ascii) (new : string) : result value :=
  match o with
  | VStr s => Ok (VStr (replace_char c new s))
  | _ => Raise AttributeError
  end.

(** The text an f-string interpolates for a [str]; in the functions below
    nothing but a string reaches an interpolation. *)
Definition interpolate (o : value) : string :=
  match o with
  | VStr s => s
  | _ => EmptyString
  end.

(** ** [int(...)]

    Text is ASCII.  [int] of a string strips surrounding whitespace, takes an
    optional sign and then decimal digits, where single underscores may stand
    between digits; whitespace is tab, newline, vertical tab, form feed,
    carriage return and space.  (CPython's optional limit on the number of
    digits is not modelled.) *)
Definition is_space (c : ascii) : bool :=
  let n := nat_of_ascii c in
  ((9 <=? n) && (n <=? 13) || (n =? 32))%nat.

Definition digit_of (c : ascii) : option Z :=
  let n := nat_of_ascii c in
  if ((48 <=? n) && (n <=? 57))%nat then Some (Z.of_nat n - 48) else None.

Fixpoint lstrip (s : list ascii) : list ascii :=
  match s with
  | c :: s' => if is_space c then lstrip s' else s
  | [] => []
  end.

Definition strip (s : list ascii) : list ascii :=
  rev (lstrip (rev (lstrip s))).

Fixpoint parse_digits (s : list ascii) (acc : Z) (after_digit : bool) : option Z :=
  match s with
  | [] => if after_digit then Some acc else None
  | c :: s' =>
      match digit_of c with
      | Some d => parse_digits s' (10 * acc + d) true
      | None =>
          if Ascii.eqb c "_"%char then
            (if after_digit then parse_digits s' acc false else None)
          else None
      end
  end.

Definition int_of_string (s : string) : option Z :=
  match strip (list_ascii_of_string s) with
  | c :: s' =>
      if Ascii.eqb c "-"%char then Z.opp <$> parse_digits s' 0 false
      else if Ascii.eqb c "+"%char then parse_digits s' 0 false
      else parse_digits (c :: s') 0 false
  | [] => None
  end.

(** [int] of a float truncates towards zero; infinities and NaN have no
    integer value. *)
Definition int_of_float (f : spec_float) : result Z :=
  match f with
  | S754_zero _ => Ok 0
  | S754_finite s m e =>
      let mag := Z.shiftl (Z.pos m) e in
      Ok (if s then - mag else mag)
  | S754_infinity _ => Raise OverflowError
  | S754_nan => Raise ValueError
  end.

Definition py_int (o : value) : result Z :=
  match o with
  | VInt n => Ok n
  | VBool b => Ok (if b then 1 else 0)
  | VFloat f => int_of_float f
  | VStr s =>
      match int_of_string s with
      | Some n => Ok n
      | None => Raise ValueError
      end
  | VNone | VList _ | VDict _ | VObject => Raise TypeError
  end.

(** The class [int] used as a callable. *)
Definition int (o : value) : result value :=
  let? n := py_int o in Ok (VInt n).

(** ** utils.py *)

(** [convert(o, annotations)]: only [ValueError] and [TypeError] are caught. *)
Definition convert (o : value) (annotations : value -> result value) : result value :=
  match annotations o with
  | Ok v => Ok v
  | Raise ValueError => Ok VObject
  | Raise TypeError => Ok VObject
  | Raise e => Raise e
  end.

(** [guess_mimetype(byts)]: the bytes are a string of 8-bit characters;
    [byts[6:10]] is [substring 6 4], which like a Python slice is shorter when
    the input is. *)
Definition png_mark : string :=
  String "026" (String "010" (String "000" (String "000" EmptyString))).

Definition guess_mimetype (byts : string) : string :=
  if String.eqb (substring 6 4 byts) png_mark then "image/png"
  else if String.eqb (substring 6 4 byts) "JFIF" then "image/jpeg"
  else if String.eqb (substring 6 4 byts) "ypis" then "video/mp4"
  else if String.prefix "GIF87a" byts || String.prefix "GIF89a" byts then "image/gif"
  else "text/plain".

(** [compose_tweet(text)]; [text] is [None] when not given. *)
Definition compose_tweet (text : value) : result string :=
  let? text := if truthy text then py_replace text " " "%20" else Ok text in
  if negb (truthy text) then Ok "https://twitter.com/intent/tweet"
  else Ok ("https://twitter.com/intent/tweet" ++ "?text=" ++ interpolate text)%string.

(** What the two functions below hand back: a link, or the [TypeError]
    instance that they return (they do not raise it). *)
Inductive composed : Type :=
| Link (url : string)
| TypeErrorValue (message : string).

(** [compose_user_action(user_id, action, text)]; [user_id] is a [str]. *)
Definition compose_user_action (user_id : string) (action text : value) : result composed :=
  let? lowered := py_lower action in
  if negb (bool_decide (lowered ∈ ["follow"; "dm"])) then
    Ok (TypeErrorValue "Action must be either 'follow' or 'dm'")
  else
  let? text := if truthy text then py_replace text " " "%20" else Ok text in
  let? lowered := py_lower action in
  if String.eqb lowered "follow" then
    Ok (Link ("https://twitter.com/intent/user?user_id=" ++ user_id)%string)
  else if truthy text then
    Ok (Link (("https://twitter.com/messages/compose?recipient_id=" ++ user_id)
              ++ ("?text=" ++ interpolate text))%string)
  else
    Ok (Link ("https://twitter.com/messages/compose?recipient_id=" ++ user_id)%string).

(** [compose_tweet_action(tweet_id, action)]; [tweet_id] is given as the text
    that the f-string interpolates, [action] is [None] when not given. *)
Definition compose_tweet_action (tweet_id : string) (action : value) : result composed :=
  let? lowered := py_lower action in
  if negb (bool_decide (lowered ∈ ["retweet"; "like"; "reply"])) then
    Ok (TypeErrorValue "Action must be either 'retweet', 'like', or 'reply'")
  else if negb (String.eqb (interpolate action) "reply") then
    Ok (Link ("https://twitter.com/intent/" ++ interpolate action
              ++ "?tweet_id=" ++ tweet_id)%string)
  else
    Ok (Link ("https://twitter.com/intent/tweet?in_reply_to=" ++ tweet_id)%string).

(** ** parser.py: PayloadParser *)
Module PayloadParser.

Definition parse_user_payload (payload : value) : result value :=
  let? copy := py_copy payload in
  let? followers := py_get copy "followers_count" VNone in
  let? friends := py_get copy "friends_count" VNone in
  let? statuses := py_get copy "statuses_count" VNone in
  let? copy :=
    py_setitem copy "public_metrics"
      (VDict [("followers_count", followers);
              ("following_count", friends);
              ("tweet_count", statuses);
              ("listed_count", VInt 0)]) in
  let? has_created := py_in_keys "created_timestamp" copy in
  let? copy :=
    if has_created then
      let? v := py_get copy "created_timestamp" VNone in py_setitem copy "created_at" v
    else Ok copy in
  let? has_screen := py_in_keys "screen_name" copy in
  let? copy :=
    if has_screen then
      let? v := py_get copy "screen_name" VNone in py_setitem copy "username" v
    else Ok copy in
  let? has_image := py_in_keys "profile_image_url_https" copy in
  let? copy :=
    if has_image then
      let? v := py_get copy "profile_image_url_https" VNone in
      py_setitem copy "profile_image_url" v
    else Ok copy in
  Ok copy.

(** One element of [fulldata]. *)
Definition author_wrapper (payload data : value) : result value :=
  let? includes := py_get payload "includes" (VDict []) in
  let? users := py_get includes "users" (VList [VNone]) in
  let? user := py_first users in
  Ok (VDict [("data", data); ("includes", VDict [("users", VList [user])])]).

Definition insert_pagination_object_author (payload : value) : result value :=
  let? data := py_getitem payload "data" in
  let? items := py_iter data in
  let? fulldata := mapM (author_wrapper payload) items in
  Ok (VList fulldata).

(** [parse_tweet_payload] writes into the mapping it is given: the state is
    the contents of the object bound to [payload], and the value returned is
    that same object. *)
Definition parse_tweet_payload : M value value :=
  let* quote := reads (fun payload => py_get payload "quote_count" VNone) in
  let* reply := reads (fun payload => py_get payload "reply_count" VNone) in
  let* retweet := reads (fun payload => py_get payload "retweet_count" VNone) in
  let* favorite := reads (fun payload => py_get payload "favorite_count" VNone) in
  updates (fun payload =>
    py_setitem payload "public_metrics"
      (VDict [("quote_count", quote);
              ("reply_count", reply);
              ("retweet_count", retweet);
              ("like_count", favorite)]));;
  updates (fun payload => py_setitem payload "includes" (VDict []));;
  let* entities := reads (fun payload => py_get payload "entities" VNone) in
  let* user_mentions := lift (py_get entities "user_mentions" VNone) in
  let* users := lift (py_iter user_mentions) in
  let* mentions := lift (mapM (fun user => py_get user "screen_name" VNone) users) in
  let* includes := reads (fun payload => py_getitem payload "includes") in
  let* includes := lift (py_setitem includes "mentions" (VList mentions)) in
  updates (fun payload => py_setitem payload "includes" includes);;
  let* has_timestamp := reads (py_in_keys "timestamp_ms") in
  (if has_timestamp : bool then
     let* v := reads (fun payload => py_get payload "timestamp_ms" VNone) in
     updates (fun payload => py_setitem payload "timestamp" v)
   else ret tt);;
  let* has_user := reads (py_in_keys "user") in
  (if has_user : bool then
     let* user := reads (fun payload => py_get payload "user" VNone) in
     let* parsed := lift (parse_user_payload user) in
     let* includes := reads (fun payload => py_getitem payload "includes") in
     let* includes := lift (py_setitem includes "users" (VList [parsed])) in
     updates (fun payload => py_setitem payload "includes" includes)
   else ret tt);;
  get.

Definition parse_metric_data (payload : value) : result value :=
  let? items := py_items payload in
  let? d := foldM (fun d '(k, v) => let? c := convert v int in Ok (dict_set d k c))
                  items [] in
  Ok (VDict d).

(** [insert_object_author(payload, author)] works in place, like
    [parse_tweet_payload]; the [User] class is outside the sources, and
    [author] is given by the payload it keeps as [__original_payload]. *)
Definition insert_object_author (author_original_payload : value) : M value value :=
  updates (fun payload => py_setitem payload "includes" (VDict []));;
  let* includes := reads (fun payload => py_getitem payload "includes") in
  let* includes := lift (py_setitem includes "users" (VList [author_original_payload])) in
  updates (fun payload => py_setitem payload "includes" includes);;
  get.

(** [parse_embed_data(payload)], in place as well. *)
Definition parse_embed_data : M value value :=
  let* status := reads (fun payload => py_get payload "status" VNone) in
  let* status_code :=
    if truthy status then ret status
    else reads (fun payload => py_get payload "status_code" VNone) in
  updates (fun payload => py_setitem payload "status_code" status_code);;
  let* status := reads (fun payload => py_get payload "status" VNone) in
  (if truthy status then updates (fun payload => py_delitem payload "status")
   else ret tt);;
  get.

End PayloadParser.

(** ** enums.py *)

Inductive ActionEventType : Type :=
| direct_message_read
| direct_message_typing.

Inductive UserActionEventType : Type :=
| follow
| block
| unmute.

(** [ActionEventType(value)] and [UserActionEventType(value)]: the member
    with that value, [ValueError] when there is none. *)
Definition ActionEventType_of (v : string) : result ActionEventType :=
  if String.eqb v "direct_message_mark_read_events" then Ok direct_message_read
  else if String.eqb v "direct_message_indicate_typing_events" then Ok direct_message_typing
  else Raise ValueError.

Definition UserActionEventType_of (v : string) : result UserActionEventType :=
  if String.eqb v "follow_events" then Ok follow
  else if String.eqb v "block_events" then Ok block
  else if String.eqb v "mute_events" then Ok unmute
  else Raise ValueError.

(** ** events.py *)
Module Event.

Record t : Type := mk { _type : string; _payload : value }.

Definition __init__ (data : value) : result t :=
  let? keys := py_keys data in
  let? type := match keys !! 1%nat with
               | Some k => Ok k
               | None => Raise IndexError
               end in
  let? events := py_get data type VNone in
  let? payload := py_first events in
  Ok (mk type payload).

(** The [type] property. *)
Definition type (self : t) : result (ActionEventType + UserActionEventType) :=
  match ActionEventType_of (_type self) with
  | Ok a => Ok (inl a)
  | Raise ValueError =>
      let? u := UserActionEventType_of (_type self) in Ok (inr u)
  | Raise e => Raise e
  end.

End Event.

(** ** parser.py: EventParser *)
Module EventParser.
Section defs.

(** The [Tweet] class is outside the sources: a cached tweet is an opaque
    object (truthy, like any instance of a class without [__bool__]) whose
    [deleted_timestamp] attribute can be assigned. *)
Variable Tweet : Type.
Variable set_deleted_timestamp : Tweet -> Z -> Tweet.

(** What is handed to [dispatch]: [Message(text, id, type)] or a tweet. *)
Inductive dispatched : Type :=
| Message (text : value) (id : value) (type : Z)
| ATweet (tweet : Tweet).

(** The part of the HTTP client that [parse_tweet_delete] touches.  The
    dispatcher itself is outside the sources: a call of [dispatch] is
    recorded as the channel name and the argument. *)
Record HTTPClient : Type := mkHTTPClient {
  tweet_cache : gmap Z Tweet;
  dispatches : list (string * dispatched)
}.

Definition dispatch (event_name : string) (arg : dispatched) : M HTTPClient value :=
  fun http => (Ok VNone,
               mkHTTPClient (tweet_cache http) (dispatches http ++ [(event_name, arg)])).

Definition parse_tweet_delete (tweet_payload : value) : M HTTPClient value :=
  let* events := lift (py_get tweet_payload "tweet_delete_events" VNone) in
  let* event_payload := lift (py_first events) in
  let* status := lift (py_get event_payload "status" VNone) in
  let* tweet_id := lift (py_get status "id" VNone) in
  let* key := lift (py_int tweet_id) in
  let* http := get in
  match tweet_cache http !! key with
  | None =>
      let message := Message VNone tweet_id 1 in
      dispatch "tweet_delete" message
  | Some tweet =>
      modify (fun http => mkHTTPClient (delete key (tweet_cache http)) (dispatches http));;
      let* timestamp_ms := lift (py_get event_payload "timestamp_ms" VNone) in
      let* ts := lift (py_int timestamp_ms) in
      dispatch "tweet_delete" (ATweet (set_deleted_timestamp tweet ts));;
      ret VNone
  end.

(** The [Tweet] constructor and the [id] property, outside the sources too. *)
Variable Tweet_new : value -> Tweet.
Variable Tweet_id : Tweet -> Z.

(** [parse_tweet_payload] works on the first event of the delivery itself:
    what it leaves in that event is stored back as element 0 of
    [tweet_create_events]. *)
Definition store_first_event (tweet_payload event : value) : value :=
  match tweet_payload with
  | VDict d =>
      match dict_get d "tweet_create_events" with
      | Some (VList (_ :: others)) =>
          VDict (dict_set d "tweet_create_events" (VList (event :: others)))
      | _ => tweet_payload
      end
  | _ => tweet_payload
  end.

(** [parse_tweet_create(tweet_payload)]: the state is the delivery (whose
    first event is rewritten in place) together with the client. *)
Definition parse_tweet_create : M (value * HTTPClient) value :=
  let* events := reads (fun '(tweet_payload, _) =>
                          py_get tweet_payload "tweet_create_events" VNone) in
  let* event := lift (py_first events) in
  let* tweet_payload :=
    (fun '(delivery, http) =>
       let '(r, event') := PayloadParser.parse_tweet_payload event in
       (r, (store_first_event delivery event', http))) in
  let tweet := Tweet_new tweet_payload in
  modify (fun '(delivery, http) =>
            (delivery,
             mkHTTPClient (<[ Tweet_id tweet := tweet ]> (tweet_cache http))
                          (dispatches http)));;
  (fun '(delivery, http) =>
     let '(r, http') := dispatch "tweet_create" (ATweet tweet) http in
     (r, (delivery, http')));;
  ret VNone.

End defs.
End EventParser.

(** ** paginations.py *)

(** One call of [http_client.request(method, version, path, auth=..., params=...)]. *)
Record http_request : Type := mkRequest {
  req_method : string;
  req_version : string;
  req_path : string;
  req_auth : bool;
  req_params : value
}.

Module Pagination.
Section defs.

(** The item class ([User] for [UserPagination]) is outside the sources: it
    is a decoder [item_type], the [id] property and [==]. *)
Context {Item : Type}.
Variable item_type : value -> Item.
Variable item_id : Item -> Z.

Record t : Type := mk {
  original_payload : value;
  _payload : value;
  _meta : value;
  _next_token : value;
  _previous_token : value;
  _count : Z;
  _paginate_over : Z;
  _current_page_number : Z;
  _params : value;
  endpoint_request : string;
  pages_cache : gmap Z (list (Z * Item))
}.

Definition set_original_payload (v : value) (p : t) : t :=
  mk v (_payload p) (_meta p) (_next_token p) (_previous_token p) (_count p)
     (_paginate_over p) (_current_page_number p) (_params p) (endpoint_request p)
     (pages_cache p).
Definition set_payload (v : value) (p : t) : t :=
  mk (original_payload p) v (_meta p) (_next_token p) (_previous_token p) (_count p)
     (_paginate_over p) (_current_page_number p) (_params p) (endpoint_request p)
     (pages_cache p).
Definition set_meta (v : value) (p : t) : t :=
  mk (original_payload p) (_payload p) v (_next_token p) (_previous_token p) (_count p)
     (_paginate_over p) (_current_page_number p) (_params p) (endpoint_request p)
     (pages_cache p).
Definition set_next_token (v : value) (p : t) : t :=
  mk (original_payload p) (_payload p) (_meta p) v (_previous_token p) (_count p)
     (_paginate_over p) (_current_page_number p) (_params p) (endpoint_request p)
     (pages_cache p).
Definition set_previous_token (v : value) (p : t) : t :=
  mk (original_payload p) (_payload p) (_meta p) (_next_token p) v (_count p)
     (_paginate_over p) (_current_page_number p) (_params p) (endpoint_request p)
     (pages_cache p).
Definition set_count (n : Z) (p : t) : t :=
  mk (original_payload p) (_payload p) (_meta p) (_next_token p) (_previous_token p) n
     (_paginate_over p) (_current_page_number p) (_params p) (endpoint_request p)
     (pages_cache p).
Definition set_current_page_number (n : Z) (p : t) : t :=
  mk (original_payload p) (_payload p) (_meta p) (_next_token p) (_previous_token p)
     (_count p) (_paginate_over p) n (_params p) (endpoint_request p) (pages_cache p).
Definition set_params (v : value) (p : t) : t :=
  mk (original_payload p) (_payload p) (_meta p) (_next_token p) (_previous_token p)
     (_count p) (_paginate_over p) (_current_page_number p) v (endpoint_request p)
     (pages_cache p).
Definition set_pages_cache (c : gmap Z (list (Z * Item))) (p : t) : t :=
  mk (original_payload p) (_payload p) (_meta p) (_next_token p) (_previous_token p)
     (_count p) (_paginate_over p) (_current_page_number p) (_params p)
     (endpoint_request p) c.

(** The [content] property. *)
Definition content (self : t) : result (list Item) :=
  let? datas := py_iter (_payload self) in
  Ok (item_type <$> datas).

(** [{obj.id: obj for obj in items}] *)
Definition by_id (items : list Item) : list (Z * Item) :=
  foldl (fun d obj => dict_set d (item_id obj) obj) [] items.

(** [Pagination(data, endpoint_request=..., params=...)]; [params] is [None]
    when the keyword is not given. *)
Definition __init__ (data : value) (endpoint : string) (params : value) : result t :=
  let? payload := py_get data "data" VNone in
  let? meta := py_get data "meta" VNone in
  let? next_token := py_get meta "next_token" VNone in
  let? previous_token := py_get meta "previous_token" VNone in
  let self := mk data payload meta next_token previous_token 0 0 1 params endpoint ∅ in
  let? items := content self in
  Ok (set_pages_cache {[ 1 := by_id items ]} self).

Definition get_page_content (self : t) (page_number : Z) : option (list Item) :=
  match pages_cache self !! page_number with
  | None => None
  | Some [] => None
  | Some content => Some (dict_values content)
  end.

End defs.
End Pagination.

Module UserPagination.
Section defs.
Import Pagination.

Context {Item : Type}.
Variable item_type : value -> Item.
Variable item_id : Item -> Z.
Variable item_eqb : Item -> Item -> bool.

(** The transport is outside the sources: its answer may depend on the
    requests made so far and on the request at hand; it returns [None] when
    there is nothing, or raises. *)
Variable request : list http_request -> http_request -> result value.

(** A cursor together with the requests sent so far. *)
Record session : Type := mkSession {
  sent : list http_request;
  self : Pagination.t (Item := Item)
}.

Definition on_self (f : Pagination.t -> Pagination.t) : M session unit :=
  modify (fun s => mkSession (sent s) (f (self s))).

Definition http_client_request (method version path : string) (auth : bool)
    (params : value) : M session value :=
  fun s =>
    let r := mkRequest method version path auth params in
    (request (sent s) r, mkSession (sent s ++ [r]) (self s)).

(** [items[0]] on a Python list of items. *)
Definition first_item (items : list Item) : result Item :=
  match items with
  | x :: _ => Ok x
  | [] => Raise IndexError
  end.

Definition next_page : M session unit :=
  let* s := get in
  if negb (truthy (_next_token (self s))) then raise NoPageAvailable else
  let* params := lift (py_setitem (_params (self s)) "pagination_token"
                                  (_next_token (self s))) in
  on_self (set_params params);;
  let* res := http_client_request "GET" "2" (endpoint_request (self s)) true params in
  if negb (truthy res) then raise NoPageAvailable else
  let* previous_content := reads (fun s => content item_type (self s)) in
  on_self (fun p => set_current_page_number (_current_page_number p + 1) p);;
  on_self (set_original_payload res);;
  let* data := reads (fun s => py_get (original_payload (self s)) "data" VNone) in
  on_self (set_payload data);;
  let* meta := reads (fun s => py_get (original_payload (self s)) "meta" VNone) in
  on_self (set_meta meta);;
  let* next_token := reads (fun s => py_get (_meta (self s)) "next_token" VNone) in
  on_self (set_next_token next_token);;
  let* previous_token := reads (fun s => py_get (_meta (self s)) "previous_token" VNone) in
  on_self (set_previous_token previous_token);;
  on_self (set_count 0);;
  let* before := lift (first_item previous_content) in
  let* now := reads (fun s => content item_type (self s)) in
  let* after := lift (first_item now) in
  if negb (item_eqb before after) then
    let* users := reads (fun s => content item_type (self s)) in
    on_self (fun p =>
      set_pages_cache
        (<[ Z.of_nat (size (pages_cache p)) + 1 := by_id item_id users ]> (pages_cache p)) p)
  else ret tt.

Definition previous_page : M session unit :=
  let* s := get in
  if negb (truthy (_previous_token (self s))) then raise NoPageAvailable else
  let* params := lift (py_setitem (_params (self s)) "pagination_token"
                                  (_previous_token (self s))) in
  on_self (set_params params);;
  let* res := http_client_request "GET" "2" (endpoint_request (self s)) true params in
  if negb (truthy res) then raise NoPageAvailable else
  let* previous_content := reads (fun s => content item_type (self s)) in
  on_self (fun p => set_current_page_number (_current_page_number p - 1) p);;
  on_self (set_original_payload res);;
  let* data := reads (fun s => py_get (original_payload (self s)) "data" VNone) in
  on_self (set_payload data);;
  let* meta := reads (fun s => py_get (original_payload (self s)) "meta" VNone) in
  on_self (set_meta meta);;
  let* next_token := reads (fun s => py_get (_meta (self s)) "next_token" VNone) in
  on_self (set_next_token next_token);;
  let* previous_token := reads (fun s => py_get (_meta (self s)) "previous_token" VNone) in
  on_self (set_previous_token previous_token);;
  on_self (set_count 0);;
  let* before := lift (first_item previous_content) in
  let* now := reads (fun s => content item_type (self s)) in
  let* after := lift (first_item now) in
  if negb (item_eqb before after) then
    let* users := reads (fun s => content item_type (self s)) in
    on_self (fun p =>
      set_pages_cache
        (<[ Z.of_nat (size (pages_cache p)) + 1 := by_id item_id users ]> (pages_cache p)) p)
  else ret tt.

End defs.
End UserPagination.

(** * Vocabulary of the statements *)

(** The sub-mapping that [parse_user_payload] stores under [public_metrics]. *)
Definition user_public_metrics (P : list (string * value)) : value :=
  VDict [("followers_count", default VNone (dict_get P "followers_count"));
         ("following_count", default VNone (dict_get P "friends_count"));
         ("tweet_count", default VNone (dict_get P "statuses_count"));
         ("listed_count", VInt 0)].

(** The wrapper built for one item of the page. *)
Definition author_wrapped (u item : value) : value :=
  VDict [("data", item); ("includes", VDict [("users", VList [u])])].

(** What [convert(v, int)] yields when it returns. *)
Definition metric_value (v : value) : value :=
  match py_int v with
  | Ok n => VInt n
  | Raise _ => VObject
  end.

Definition infinite_float (v : value) : Prop :=
  exists s : bool, v = VFloat (S754_infinity s).

Definition tweet_public_metrics (P : list (string * value)) : value :=
  VDict [("quote_count", default VNone (dict_get P "quote_count"));
         ("reply_count", default VNone (dict_get P "reply_count"));
         ("retweet_count", default VNone (dict_get P "retweet_count"));
         ("like_count", default VNone (dict_get P "favorite_count"))].

(** A tweet payload with no mentions, no timestamp and no embedded user. *)
Definition bare_tweet : list (string * value) :=
  [("id", VStr "7"); ("entities", VDict [("user_mentions", VList [])])].

(** A delete event for tweet 42 arriving at a client with an empty cache. *)
Definition delete_42 : value :=
  VDict [("for_user_id", VStr "1");
         ("tweet_delete_events",
          VList [VDict [("status", VDict [("id", VStr "42"); ("user_id", VStr "1")]);
                        ("timestamp_ms", VStr "1000")]])].

(** A [GET] on API version 2, as the cursors of [UserPagination] issue it. *)
Definition page_request (endpoint : string) (params : value) : http_request :=
  mkRequest "GET" "2" endpoint true params.

(** The two ways of stepping a cursor. *)
Inductive call : Type := Next | Previous.

Fixpoint count_next (calls : list call) : Z :=
  match calls with
  | [] => 0
  | Next :: calls' => 1 + count_next calls'
  | Previous :: calls' => count_next calls'
  end.

Fixpoint count_previous (calls : list call) : Z :=
  match calls with
  | [] => 0
  | Next :: calls' => count_previous calls'
  | Previous :: calls' => 1 + count_previous calls'
  end.

(** The keys of a page cache are page counts: every key lies between 1 and
    the number of entries. *)
Definition cache_numbered {V : Type} (cache : gmap Z V) : Prop :=
  forall k : Z, is_Some (cache !! k) -> 1 <= k <= Z.of_nat (size cache).

Section runs.
Import Pagination UserPagination.
Context {Item : Type}.
Variable item_type : value -> Item.
Variable item_id : Item -> Z.
Variable item_eqb : Item -> Item -> bool.
Variable request : list http_request -> http_request -> result value.

Definition do_call (c : call) : M (session (Item := Item)) unit :=
  match c with
  | Next => next_page item_type item_id item_eqb request
  | Previous => previous_page item_type item_id item_eqb request
  end.

(** A run of calls: each call, returning or raising, leaves the cursor to the
    next one. *)
Definition run (calls : list call) (s : session (Item := Item)) : session :=
  foldl (fun s c => snd (do_call c s)) s calls.

(** The statements that [next_page] and [previous_page] share once a response
    has arrived; [step] is [1] or [-1]. *)
Definition turn_page (step : Z) (res : value) : M (session (Item := Item)) unit :=
  let* previous_content := reads (fun s => content item_type (self s)) in
  on_self (fun p => set_current_page_number (_current_page_number p + step) p);;
  on_self (set_original_payload res);;
  let* data := reads (fun s => py_get (original_payload (self s)) "data" VNone) in
  on_self (set_payload data);;
  let* meta := reads (fun s => py_get (original_payload (self s)) "meta" VNone) in
  on_self (set_meta meta);;
  let* next_token := reads (fun s => py_get (_meta (self s)) "next_token" VNone) in
  on_self (set_next_token next_token);;
  let* previous_token := reads (fun s => py_get (_meta (self s)) "previous_token" VNone) in
  on_self (set_previous_token previous_token);;
  on_self (set_count 0);;
  let* before := lift (first_item previous_content) in
  let* now := reads (fun s => content item_type (self s)) in
  let* after := lift (first_item now) in
  if negb (item_eqb before after) then
    let* users := reads (fun s => content item_type (self s)) in
    on_self (fun p =>
      set_pages_cache
        (<[ Z.of_nat (size (pages_cache p)) + 1 := by_id item_id users ]> (pages_cache p)) p)
  else ret tt.

(** The session that [turn_page] leaves when all its assignments have run. *)
Definition turned (step : Z) (res data meta next_token previous_token : value)
    (cache : gmap Z (list (Z * Item))) (s : session (Item := Item)) : session :=
  mkSession (sent s)
    (Pagination.mk res data meta next_token previous_token 0
       (_paginate_over (self s)) (_current_page_number (self s) + step)
       (_params (self s)) (endpoint_request (self s)) cache).

(** [next_page] and [previous_page] written out as one case analysis: they
    differ by the token they send and by the direction of the step. *)
Definition page_step (token : value) (step : Z) (s : session (Item := Item))
    : result unit * session (Item := Item) :=
  if truthy token then
    match py_setitem (_params (self s)) "pagination_token" token with
    | Ok params =>
        let r := page_request (endpoint_request (self s)) params in
        let s1 := mkSession (sent s ++ [r]) (set_params params (self s)) in
        match request (sent s) r with
        | Ok res =>
            if truthy res then turn_page step res s1
            else (Raise NoPageAvailable, s1)
        | Raise e => (Raise e, s1)
        end
    | Raise e => (Raise e, s)
    end
  else (Raise NoPageAvailable, s).

(** The page cache after the comparison of the two first items. *)
Definition cache_after (before : Item) (now : list Item)
    (cache : gmap Z (list (Z * Item))) : gmap Z (list (Z * Item)) :=
  match now with
  | after :: _ =>
      if item_eqb before after then cache
      else <[ Z.of_nat (size cache) + 1 := by_id item_id now ]> cache
  | [] => cache
  end.
End runs.

(** *** A stand-in for [User] and a scripted transport, for the examples

    Items are the raw payloads themselves, identified and compared by the
    integer under ["id"]. *)
Definition raw_id (data : value) : Z :=
  match py_get data "id" VNone with
  | Ok v => match py_int v with Ok n => n | Raise _ => 0 end
  | Raise _ => 0
  end.

Definition same_id (a b : value) : bool := (raw_id a =? raw_id b)%Z.

Definition page_1 : value :=
  VDict [("data", VList [VDict [("id", VStr "1")]; VDict [("id", VStr "2")]]);
         ("meta", VDict [("result_count", VInt 2); ("next_token", VStr "t2")])].

Definition page_2 : value :=
  VDict [("data", VList [VDict [("id", VStr "3")]]);
         ("meta", VDict [("result_count", VInt 1); ("previous_token", VStr "t1")])].

(** Answers [page_2] to the token ["t2"], [page_1] to ["t1"], nothing otherwise. *)
Definition scripted (history : list http_request) (r : http_request) : result value :=
  match py_get (req_params r) "pagination_token" VNone with
  | Ok (VStr token) =>
      if String.eqb token "t2" then Ok page_2
      else if String.eqb token "t1" then Ok page_1
      else Ok VNone
  | _ => Ok VNone
  end.

Definition stub_params : value := VDict [("max_results", VInt 2)].

Definition stub_init (data : value) : result (Pagination.t (Item := value)) :=
  Pagination.__init__ id raw_id data "users/1/followers" stub_params.

Definition stub_next_page : M (UserPagination.session (Item := value)) unit :=
  UserPagination.next_page id raw_id same_id scripted.

Definition stub_previous_page : M (UserPagination.session (Item := value)) unit :=
  UserPagination.previous_page id raw_id same_id scripted.

(** The cursors that [stub_init] builds from the two pages, and the sessions
    that start with them. *)
Definition cursor_1 : Pagination.t (Item := value) :=
  Pagination.mk page_1
    (VList [VDict [("id", VStr "1")]; VDict [("id", VStr "2")]])
    (VDict [("result_count", VInt 2); ("next_token", VStr "t2")])
    (VStr "t2") VNone 0 0 1 stub_params "users/1/followers"
    {[ 1 := [(1, VDict [("id", VStr "1")]); (2, VDict [("id", VStr "2")])] ]}.

Definition cursor_2 : Pagination.t (Item := value) :=
  Pagination.mk page_2
    (VList [VDict [("id", VStr "3")]])
    (VDict [("result_count", VInt 1); ("previous_token", VStr "t1")])
    VNone (VStr "t1") 0 0 1 stub_params "users/1/followers"
    {[ 1 := [(3, VDict [("id", VStr "3")])] ]}.

Definition start_1 : UserPagination.session (Item := value) :=
  UserPagination.mkSession [] cursor_1.

Definition start_2 : UserPagination.session (Item := value) :=
  UserPagination.mkSession [] cursor_2.


(** ** Vocabulary of the further properties *)

Definition is_mapping (v : value) : Prop := exists d, v = VDict d.

(** [d[dst] = d.get(src)] when [src] is a key of [d]. *)
Definition copy_entry (src dst : string) (d : list (string * value))
    : list (string * value) :=
  match dict_get d src with
  | Some v => dict_set d dst v
  | None => d
  end.

(** The mapping that [parse_user_payload] returns for the mapping [P]. *)
Definition user_parsed (P : list (string * value)) : list (string * value) :=
  copy_entry "profile_image_url_https" "profile_image_url"
    (copy_entry "screen_name" "username"
       (copy_entry "created_timestamp" "created_at"
          (dict_set P "public_metrics" (user_public_metrics P)))).

(** The keys that [parse_user_payload] writes. *)
Definition user_written : list string :=
  ["public_metrics"; "created_at"; "username"; "profile_image_url"].

(** [user.get("screen_name")] for a mention that is a mapping. *)
Definition screen_name_of (user : value) : value :=
  match py_get user "screen_name" VNone with
  | Ok v => v
  | Raise _ => VNone
  end.

(** The [includes] entry that [parse_tweet_payload] leaves for a tweet with
    the mentions [users] and the embedded [user], if any. *)
Definition tweet_includes (users : list value) (user : option value) : value :=
  VDict (("mentions", VList (screen_name_of <$> users)) ::
         match user with
         | Some (VDict u) => [("users", VList [VDict (user_parsed u)])]
         | _ => []
         end).

(** The keys that [parse_tweet_payload] writes. *)
Definition tweet_written : list string := ["public_metrics"; "includes"; "timestamp"].

(** A webhook tweet with two mentions, a timestamp and an embedded user. *)
Definition full_tweet : list (string * value) :=
  [("id", VStr "7");
   ("timestamp_ms", VStr "1000");
   ("favorite_count", VInt 3);
   ("entities",
    VDict [("user_mentions",
            VList [VDict [("screen_name", VStr "ann")];
                   VDict [("screen_name", VStr "bob")]])]);
   ("user", VDict [("screen_name", VStr "carl"); ("followers_count", VInt 5)])].

(** The status that [parse_embed_data] reads first. *)
Definition embed_status (P : list (string * value)) : value :=
  default VNone (dict_get P "status").

(** The event families for which the [type] property has a member. *)
Definition typed_families : list string :=
  ["direct_message_mark_read_events"; "direct_message_indicate_typing_events";
   "follow_events"; "block_events"; "mute_events"].

(** A tweet-create delivery for tweet 42, and a stand-in for [Tweet]: the
    payload it was built from and, once deleted, the timestamp. *)
Definition create_42 : value :=
  VDict [("for_user_id", VStr "1");
         ("tweet_create_events",
          VList [VDict [("id", VStr "42");
                        ("entities", VDict [("user_mentions", VList [])])]])].

Definition stamp (t : value * option Z) (ts : Z) : value * option Z := (fst t, Some ts).
Definition fresh_tweet (payload : value) : value * option Z := (payload, None).
Definition payload_id (t : value * option Z) : Z := raw_id (fst t).

(** A client that has tweet 42 in its cache. *)
Definition cached_42 : EventParser.HTTPClient (value * option Z) :=
  EventParser.mkHTTPClient _ {[ 42 := fresh_tweet (VStr "t") ]} [].

(** A client with nothing cached, a delete event for tweet 42 that carries no
    timestamp, and what [parse_tweet_payload] makes of the event of
    [create_42]. *)
Definition idle_client : EventParser.HTTPClient (value * option Z) :=
  EventParser.mkHTTPClient _ ∅ [].

Definition delete_42_unstamped : value :=
  VDict [("for_user_id", VStr "1");
         ("tweet_delete_events", VList [VDict [("status", VDict [("id", VStr "42")])]])].

Definition parsed_42 : value :=
  VDict [("id", VStr "42");
         ("entities", VDict [("user_mentions", VList [])]);
         ("public_metrics",
          VDict [("quote_count", VNone); ("reply_count", VNone);
                 ("retweet_count", VNone); ("like_count", VNone)]);
         ("includes", VDict [("mentions", VList [])])].

(** The token that a call sends, and the direction in which it steps. *)
Definition token_of {Item : Type} (c : call) (p : Pagination.t (Item := Item)) : value :=
  match c with
  | Next => Pagination._next_token p
  | Previous => Pagination._previous_token p
  end.

Definition step_of (c : call) : Z :=
  match c with
  | Next => 1
  | Previous => -1
  end.

Definition is_dict (v : value) : bool :=
  match v with
  | VDict _ => true
  | _ => false
  end.

(** A request as the cursor that was created for [endpoint] sends it: a [GET]
    on that endpoint whose parameters carry a token. *)
Definition cursor_request (endpoint : string) (r : http_request) : Prop :=
  r = page_request endpoint (req_params r) /\
  exists token : value,
    py_get (req_params r) "pagination_token" VNone = Ok token /\ truthy token = true.

(** A response with no [data], as the API sends it past the last item, and
    transports that always answer with it, respectively with nothing. *)
Definition last_page : value :=
  VDict [("meta", VDict [("result_count", VInt 0)])].

Definition ending (history : list http_request) (r : http_request) : result value :=
  Ok last_page.

Definition silent (history : list http_request) (r : http_request) : result value :=
  Ok VNone.

(** [cursor_1] built without the [params] keyword. *)
Definition cursor_bare : Pagination.t (Item := value) :=
  Pagination.set_params VNone cursor_1.

(** The parameters of [cursor_1] once a call has written the next token. *)
Definition params_t2 : value :=
  VDict [("max_results", VInt 2); ("pagination_token", VStr "t2")].

(** [cursor_1] once [ending] has answered its [next_page]. *)
Definition cursor_ended : Pagination.t (Item := value) :=
  Pagination.mk last_page VNone (VDict [("result_count", VInt 0)]) VNone VNone 0 0 2
    params_t2
    "users/1/followers"
    {[ 1 := [(1, VDict [("id", VStr "1")]); (2, VDict [("id", VStr "2")])] ]}.

(** [cursor_1] on a page that has no item: the payload is an empty list. *)
Definition cursor_empty : Pagination.t (Item := value) :=
  Pagination.set_payload (VList []) cursor_1.

(** Whether a text has a space in it, and whether a value is a [str]. *)
Fixpoint has_space (s : string) : bool :=
  match s with
  | EmptyString => false
  | String c s' => Ascii.eqb c " " || has_space s'
  end.

Definition is_str (v : value) : bool :=
  match v with
  | VStr _ => true
  | _ => false
  end.


(** * Properties *)

(** ** Dictionaries *)
Section pydict_facts.
Context {K V : Type} `{EqDecision K}.
Implicit Types (d : list (K * V)) (k : K) (v : V).

Lemma dict_get_set_eq d k v : dict_get (dict_set d k v) k = Some v.
Proof.
  induction d as [|[k' v'] d IH]; simpl.
  - by rewrite decide_True.
  - destruct (decide (k = k')) as [->|Hne]; simpl.
    + by rewrite decide_True.
    + by rewrite decide_False.
Qed.

Lemma dict_get_set_ne d k k' v : k <> k' -> dict_get (dict_set d k v) k' = dict_get d k'.
Proof.
  intros Hne. induction d as [|[k'' v''] d IH]; simpl.
  - by rewrite decide_False.
  - destruct (decide (k = k'')) as [->|Hne']; simpl.
    + by rewrite !decide_False.
    + destruct (decide (k' = k'')); done.
Qed.

Lemma dict_get_None d k : dict_get d k = None <-> k ∉ d.*1.
Proof.
  induction d as [|[k' v'] d IH]; simpl.
  - split; [intros _; apply not_elem_of_nil | done].
  - destruct (decide (k = k')) as [->|Hne].
    + split; [done | intros []; left].
    + rewrite IH, not_elem_of_cons. tauto.
Qed.

Lemma dict_set_fresh d k v : k ∉ d.*1 -> dict_set d k v = d ++ [(k, v)].
Proof.
  induction d as [|[k' v'] d IH]; simpl; [done|].
  rewrite not_elem_of_cons. intros [Hne Hnin].
  rewrite decide_False by done. by rewrite IH.
Qed.

Lemma dict_keys_set_fresh d k v : k ∉ d.*1 -> (dict_set d k v).*1 = d.*1 ++ [k].
Proof. intros Hnin. rewrite dict_set_fresh by done. by rewrite fmap_app. Qed.

Lemma dict_get_head d k v : dict_get ((k, v) :: d) k = Some v.
Proof. simpl. by rewrite decide_True. Qed.
End pydict_facts.

(** ** Results *)
Lemma mapM_total {A B : Type} (f : A -> B) (l : list A) :
  mapM (fun x => Ok (f x)) l = Ok (f <$> l).
Proof. induction l as [|x l IH]; simpl; [done|]. by rewrite IH. Qed.

Lemma mapM_ext {A B : Type} (f g : A -> result B) (l : list A) :
  (forall x, x ∈ l -> f x = g x) -> mapM f l = mapM g l.
Proof.
  induction l as [|x l IH]; intros Hfg; simpl; [done|].
  rewrite Hfg by left. rewrite IH; [done|]. intros y Hy. apply Hfg. by right.
Qed.

(** ** Checks of the integer reader on small inputs *)
Example int_of_string_12 : int_of_string "12" = Some 12.
Proof. reflexivity. Qed.
Example int_of_string_x : int_of_string "x" = None.
Proof. reflexivity. Qed.
Example int_of_string_padded : int_of_string "  -1_000 " = Some (-1000).
Proof. reflexivity. Qed.
Example int_of_string_double_underscore : int_of_string "1__0" = None.
Proof. reflexivity. Qed.
Example int_of_string_sign_only : int_of_string "+" = None.
Proof. reflexivity. Qed.
Example int_of_float_2_75 : int_of_float (S754_finite true 11 (-2)) = Ok (-2).
Proof. reflexivity. Qed.

(** ** PayloadParser.parse_user_payload *)

(** C5. For every legacy user payload [P] (a mapping), [parse_user_payload]
    returns a mapping whose [public_metrics] entry holds [followers_count]
    taken from [P]'s [followers_count], [following_count] from [friends_count],
    [tweet_count] from [statuses_count], and [listed_count] equal to 0. *)
Theorem parse_user_payload_public_metrics (P : list (string * value)) :
  exists copy,
    PayloadParser.parse_user_payload (VDict P) = Ok (VDict copy) /\
    dict_get copy "public_metrics" = Some (user_public_metrics P).
Proof.
  unfold PayloadParser.parse_user_payload; simpl.
  set (c1 := dict_set P "public_metrics" _).
  assert (H1 : dict_get c1 "public_metrics" = Some (user_public_metrics P))
    by apply dict_get_set_eq.
  clearbody c1.
  destruct (dict_has c1 "created_timestamp"); simpl;
    [ set (c2 := dict_set c1 "created_at" _);
      assert (H2 : dict_get c2 "public_metrics" = Some (user_public_metrics P))
        by (subst c2; rewrite dict_get_set_ne by done; exact H1);
      clearbody c2
    | pose (c2 := c1);
      assert (H2 : dict_get c2 "public_metrics" = Some (user_public_metrics P)) by exact H1;
      change c1 with c2; clearbody c2 ].
  all: destruct (dict_has c2 "screen_name"); simpl;
    [ set (c3 := dict_set c2 "username" _);
      assert (H3 : dict_get c3 "public_metrics" = Some (user_public_metrics P))
        by (subst c3; rewrite dict_get_set_ne by done; exact H2);
      clearbody c3
    | pose (c3 := c2);
      assert (H3 : dict_get c3 "public_metrics" = Some (user_public_metrics P)) by exact H2;
      change c2 with c3; clearbody c3 ].
  all: destruct (dict_has c3 "profile_image_url_https"); simpl; eexists; split; try reflexivity.
  all: try (rewrite dict_get_set_ne by done); assumption.
Qed.

(** ** PayloadParser.insert_pagination_object_author *)

Lemma author_wrapper_first_user (payload includes : list (string * value))
    (u : value) (others : list value) (item : value) :
  dict_get payload "includes" = Some (VDict includes) ->
  dict_get includes "users" = Some (VList (u :: others)) ->
  PayloadParser.author_wrapper (VDict payload) item = Ok (author_wrapped u item).
Proof.
  intros Hinc Husers. unfold PayloadParser.author_wrapper; simpl.
  rewrite Hinc; simpl. by rewrite Husers.
Qed.

(** Without an [includes] entry the default [[None]] supplies the author. *)
Lemma author_wrapper_default (payload : list (string * value)) (item : value) :
  dict_get payload "includes" = None ->
  PayloadParser.author_wrapper (VDict payload) item = Ok (author_wrapped VNone item).
Proof. intros Hinc. unfold PayloadParser.author_wrapper; simpl. by rewrite Hinc. Qed.

(** C6. For a page payload whose [data] is a list of length N and whose
    [includes.users] is a list with first element [u],
    [insert_pagination_object_author] returns N wrappers in the order of
    [data], the i-th being [{data: data[i], includes: {users: [u]}}]: the one
    author is given to every item of the page. *)
Theorem insert_pagination_object_author_broadcast
    (payload : list (string * value)) (data : list value)
    (includes : list (string * value)) (u : value) (others : list value) :
  dict_get payload "data" = Some (VList data) ->
  dict_get payload "includes" = Some (VDict includes) ->
  dict_get includes "users" = Some (VList (u :: others)) ->
  exists fulldata : list value,
    PayloadParser.insert_pagination_object_author (VDict payload) = Ok (VList fulldata) /\
    length fulldata = length data /\
    forall (i : nat) (item : value),
      data !! i = Some item -> fulldata !! i = Some (author_wrapped u item).
Proof.
  intros Hdata Hinc Husers.
  exists (author_wrapped u <$> data). split; [|split].
  - unfold PayloadParser.insert_pagination_object_author; simpl.
    rewrite Hdata; simpl.
    rewrite (mapM_ext _ (fun item => Ok (author_wrapped u item))).
    + by rewrite mapM_total.
    + intros item _. by eapply author_wrapper_first_user.
  - by rewrite length_fmap.
  - intros i item Hi. by rewrite list_lookup_fmap, Hi.
Qed.

Lemma insert_pagination_object_author_broadcast_witness :
  exists fulldata : list value,
    PayloadParser.insert_pagination_object_author
      (VDict [("data", VList [VStr "t1"; VStr "t2"]);
              ("includes", VDict [("users", VList [VStr "author"])])])
    = Ok (VList fulldata) /\
    length fulldata = 2%nat /\
    forall (i : nat) (item : value),
      [VStr "t1"; VStr "t2"] !! i = Some item ->
      fulldata !! i = Some (author_wrapped (VStr "author") item).
Proof.
  apply (insert_pagination_object_author_broadcast
           [("data", VList [VStr "t1"; VStr "t2"]);
            ("includes", VDict [("users", VList [VStr "author"])])]
           [VStr "t1"; VStr "t2"]
           [("users", VList [VStr "author"])] (VStr "author") []);
    reflexivity.
Defined.

(** An empty [includes.users] makes the call raise as soon as there is an item. *)
Example insert_pagination_object_author_no_user :
  PayloadParser.insert_pagination_object_author
    (VDict [("data", VList [VStr "t1"]); ("includes", VDict [("users", VList [])])])
  = Raise IndexError.
Proof. reflexivity. Qed.

(** ** utils.convert and PayloadParser.parse_metric_data *)

Lemma py_int_overflow (v : value) :
  py_int v = Raise OverflowError <-> infinite_float v.
Proof.
  unfold infinite_float. split.
  - destruct v as [|b|n|f|s|l|d|]; simpl; try discriminate.
    + destruct f; simpl; try discriminate. eauto.
    + by destruct (int_of_string s).
  - by intros [s ->].
Qed.

Lemma py_int_raises (v : value) (e : exn) :
  py_int v = Raise e -> e = ValueError \/ e = TypeError \/ e = OverflowError.
Proof.
  destruct v as [|b|n|f|s|l|d|]; simpl; try (intros [= <-]; tauto); try discriminate.
  - destruct f; simpl; try discriminate; intros [= <-]; tauto.
  - destruct (int_of_string s); [discriminate|]. intros [= <-]; tauto.
Qed.

Lemma convert_int (v : value) :
  ~ infinite_float v -> convert v int = Ok (metric_value v).
Proof.
  intros Hfin. unfold convert, int, metric_value.
  destruct (py_int v) as [n|e] eqn:Hv; simpl; [done|].
  destruct (py_int_raises _ _ Hv) as [->|[->| ->]]; try done.
  exfalso. by apply Hfin, py_int_overflow.
Qed.

Lemma convert_int_infinite (v : value) :
  infinite_float v -> convert v int = Raise OverflowError.
Proof. intros [s ->]. reflexivity. Qed.

(** The marker is not an integer, whatever the integer. *)
Lemma marker_not_int (n : Z) : VObject <> VInt n.
Proof. discriminate. Qed.

Lemma parse_metric_data_loop (items acc : list (string * value)) :
  NoDup (acc.*1 ++ items.*1) ->
  (forall k v, (k, v) ∈ items -> ~ infinite_float v) ->
  foldM (fun d '(k, v) => let? c := convert v int in Ok (dict_set d k c)) items acc
  = Ok (acc ++ (prod_map id metric_value <$> items)).
Proof.
  revert acc. induction items as [|[k v] items IH]; intros acc Hnd Hfin; simpl.
  - by rewrite app_nil_r.
  - rewrite convert_int by (eapply Hfin; left). simpl.
    rewrite dict_set_fresh.
    + rewrite IH.
      * by rewrite <- app_assoc.
      * rewrite fmap_app, <- app_assoc. exact Hnd.
      * intros k' v' Hin. eapply Hfin. by right.
    + apply NoDup_app in Hnd as (_ & Hdisj & _).
      intros Hin. apply (Hdisj k Hin). simpl. left.
Qed.

(** On a mapping without infinite floats [parse_metric_data] returns the same
    keys in the same order, each value replaced by its integer or by the
    marker. *)
Lemma parse_metric_data_converts (payload : list (string * value)) :
  dict_wf payload ->
  (forall k v, (k, v) ∈ payload -> ~ infinite_float v) ->
  PayloadParser.parse_metric_data (VDict payload)
  = Ok (VDict (prod_map id metric_value <$> payload)).
Proof.
  intros Hwf Hfin. unfold PayloadParser.parse_metric_data; simpl.
  by rewrite parse_metric_data_loop.
Qed.

Example parse_metric_data_example :
  PayloadParser.parse_metric_data (VDict [("a", VStr "12"); ("b", VStr "x")])
  = Ok (VDict [("a", VInt 12); ("b", VObject)]).
Proof. reflexivity. Qed.

Lemma convert_int_cases (v : value) :
  (infinite_float v /\ convert v int = Raise OverflowError) \/
  (~ infinite_float v /\ convert v int = Ok (metric_value v)).
Proof.
  destruct (py_int v) as [n|e] eqn:Hv.
  - right. assert (Hfin : ~ infinite_float v).
    { intros Hinf. apply py_int_overflow in Hinf. congruence. }
    split; [done | by apply convert_int].
  - destruct (py_int_raises _ _ Hv) as [->|[->| ->]].
    + right. assert (Hfin : ~ infinite_float v).
      { intros Hinf. apply py_int_overflow in Hinf. congruence. }
      split; [done | by apply convert_int].
    + right. assert (Hfin : ~ infinite_float v).
      { intros Hinf. apply py_int_overflow in Hinf. congruence. }
      split; [done | by apply convert_int].
    + left. apply py_int_overflow in Hv. split; [done | by apply convert_int_infinite].
Qed.

Lemma parse_metric_data_loop_overflow (items acc : list (string * value)) :
  (exists k v, (k, v) ∈ items /\ infinite_float v) ->
  foldM (fun d '(k, v) => let? c := convert v int in Ok (dict_set d k c)) items acc
  = Raise OverflowError.
Proof.
  revert acc. induction items as [|[k v] items IH]; intros acc (k' & v' & Hin & Hinf).
  - by apply elem_of_nil in Hin.
  - simpl. destruct (convert_int_cases v) as [[_ ->]|[Hfin ->]]; simpl; [done|].
    apply IH. exists k', v'. split; [|done].
    apply elem_of_cons in Hin as [[= -> ->]|Hin]; [by destruct Hfin | done].
Qed.

(** C7. [parse_metric_data] is meant never to raise, an unconvertible value
    becoming the marker; but as soon as one value of the mapping is an
    infinite float it raises [OverflowError], which [convert] does not catch. *)
Theorem parse_metric_data_infinite_float (payload : list (string * value)) :
  (exists k v, (k, v) ∈ payload /\ infinite_float v) ->
  PayloadParser.parse_metric_data (VDict payload) = Raise OverflowError.
Proof.
  intros Hinf. unfold PayloadParser.parse_metric_data; simpl.
  by rewrite parse_metric_data_loop_overflow.
Qed.

Lemma parse_metric_data_infinite_float_witness :
  PayloadParser.parse_metric_data (VDict [("a", VFloat (S754_infinity false))])
  = Raise OverflowError.
Proof.
  apply (parse_metric_data_infinite_float [("a", VFloat (S754_infinity false))]).
  exists "a", (VFloat (S754_infinity false)). split.
  - apply elem_of_cons. by left.
  - exists false. reflexivity.
Defined.

(** ** Event.__init__ *)

(** C8. For a delivery mapping with at least two top-level keys, the event
    family is the key at position 1, and the event body is element 0 of the
    array stored under that key. *)
Theorem event_family_is_second_key (data : list (string * value))
    (k0 k1 : string) (v0 : value) (others : list (string * value))
    (body : value) (more : list value) :
  dict_wf data ->
  data = (k0, v0) :: (k1, VList (body :: more)) :: others ->
  Event.__init__ (VDict data) = Ok (Event.mk k1 body).
Proof.
  intros Hwf ->. unfold Event.__init__; simpl.
  rewrite decide_False; [by rewrite decide_True|].
  intros ->. apply NoDup_cons in Hwf as [Hnin _]. apply Hnin. simpl. left.
Qed.

Lemma event_family_is_second_key_witness :
  Event.__init__
    (VDict [("for_user_id", VStr "1");
            ("follow_events", VList [VDict [("type", VStr "follow")]])])
  = Ok (Event.mk "follow_events" (VDict [("type", VStr "follow")])).
Proof.
  apply (event_family_is_second_key _ "for_user_id" "follow_events" (VStr "1") []
           (VDict [("type", VStr "follow")]) []); [|reflexivity].
  unfold dict_wf; simpl. apply (bool_decide_unpack _). vm_compute. exact I.
Defined.

(** ** PayloadParser.parse_tweet_payload *)

(** [parse_tweet_payload] does not leave its argument as it was: after the
    call on [bare_tweet] the argument holds two more entries. *)
Lemma parse_tweet_payload_mutates_argument :
  snd (PayloadParser.parse_tweet_payload (VDict bare_tweet))
  = VDict (bare_tweet ++
           [("public_metrics", tweet_public_metrics bare_tweet);
            ("includes", VDict [("mentions", VList [])])]) /\
  snd (PayloadParser.parse_tweet_payload (VDict bare_tweet)) <> VDict bare_tweet.
Proof. split; [reflexivity | discriminate]. Qed.

(** C10 (amended). [parse_tweet_payload] works in place: whatever the outcome
    of the call on a mapping [P], afterwards [P] itself holds a
    [public_metrics] entry built from its legacy counters and an [includes]
    entry, and when the call returns, what it returns is [P] itself. *)
Theorem parse_tweet_payload_in_place (P : list (string * value)) :
  exists d : list (string * value),
    snd (PayloadParser.parse_tweet_payload (VDict P)) = VDict d /\
    dict_get d "public_metrics" = Some (tweet_public_metrics P) /\
    is_Some (dict_get d "includes") /\
    forall v : value,
      fst (PayloadParser.parse_tweet_payload (VDict P)) = Ok v -> v = VDict d.
Proof.
  unfold PayloadParser.parse_tweet_payload, bind, reads, updates, lift, ret, get. simpl.
  repeat (case_match; simpl in *; simplify_eq).
  all: eexists; split; [reflexivity|].
  all: repeat (rewrite dict_get_set_eq || rewrite dict_get_set_ne by done).
  all: split; [reflexivity | split; [eauto | intros v Hv; simpl in Hv; by simplify_eq]].
Qed.

(** A mapping is needed: on anything else the first [.get] raises and nothing
    is written. *)
Lemma parse_tweet_payload_not_a_mapping (payload : value) :
  (forall d, payload <> VDict d) ->
  PayloadParser.parse_tweet_payload payload = (Raise AttributeError, payload).
Proof. intros Hnd. destruct payload; try reflexivity. by destruct (Hnd d). Qed.

(** [parse_user_payload], in contrast, only reads its argument (through
    [.copy()]); on the embedded user of a tweet it adds [public_metrics] to the
    copy placed under [includes.users] and leaves the [user] entry alone. *)
Example parse_tweet_payload_embedded_user :
  snd (PayloadParser.parse_tweet_payload
         (VDict [("entities", VDict [("user_mentions", VList [])]);
                 ("user", VDict [("screen_name", VStr "bob")])]))
  = VDict [("entities", VDict [("user_mentions", VList [])]);
           ("user", VDict [("screen_name", VStr "bob")]);
           ("public_metrics", tweet_public_metrics []);
           ("includes",
            VDict [("mentions", VList []);
                   ("users",
                    VList [VDict [("screen_name", VStr "bob");
                                  ("public_metrics", user_public_metrics []);
                                  ("username", VStr "bob")]])])].
Proof. reflexivity. Qed.

(** ** EventParser.parse_tweet_delete *)
Section tweet_delete_facts.
Context {Tweet : Type}.
Variable set_deleted_timestamp : Tweet -> Z -> Tweet.

Local Abbreviation parse_tweet_delete :=
  (EventParser.parse_tweet_delete Tweet set_deleted_timestamp).
Local Abbreviation HTTPClient := (EventParser.HTTPClient Tweet).

(** C9. For a tweet-delete payload whose tweet id is not in the tweet cache,
    [parse_tweet_delete] returns normally, dispatches on ["tweet_delete"] a
    [Message] holding no text and the tweet id (not a tweet), and leaves the
    cache as it was. *)
Theorem tweet_delete_uncached_placeholder
    (tweet_payload events event_payload status tweet_id : value) (key : Z)
    (http : HTTPClient) :
  py_get tweet_payload "tweet_delete_events" VNone = Ok events ->
  py_first events = Ok event_payload ->
  py_get event_payload "status" VNone = Ok status ->
  py_get status "id" VNone = Ok tweet_id ->
  py_int tweet_id = Ok key ->
  EventParser.tweet_cache Tweet http !! key = None ->
  parse_tweet_delete tweet_payload http
  = (Ok VNone,
     EventParser.mkHTTPClient Tweet
       (EventParser.tweet_cache Tweet http)
       (EventParser.dispatches Tweet http
          ++ [("tweet_delete", EventParser.Message Tweet VNone tweet_id 1)])).
Proof.
  intros Hevents Hfirst Hstatus Hid Hkey Hcache.
  unfold EventParser.parse_tweet_delete, bind, lift, get.
  rewrite Hevents, Hfirst, Hstatus, Hid, Hkey, Hcache. reflexivity.
Qed.

(** When the tweet is cached it is removed, stamped and dispatched itself. *)
Lemma tweet_delete_cached
    (tweet_payload events event_payload status tweet_id timestamp_ms : value)
    (key ts : Z) (tweet : Tweet) (http : HTTPClient) :
  py_get tweet_payload "tweet_delete_events" VNone = Ok events ->
  py_first events = Ok event_payload ->
  py_get event_payload "status" VNone = Ok status ->
  py_get status "id" VNone = Ok tweet_id ->
  py_int tweet_id = Ok key ->
  EventParser.tweet_cache Tweet http !! key = Some tweet ->
  py_get event_payload "timestamp_ms" VNone = Ok timestamp_ms ->
  py_int timestamp_ms = Ok ts ->
  parse_tweet_delete tweet_payload http
  = (Ok VNone,
     EventParser.mkHTTPClient Tweet
       (delete key (EventParser.tweet_cache Tweet http))
       (EventParser.dispatches Tweet http
          ++ [("tweet_delete",
               EventParser.ATweet Tweet (set_deleted_timestamp tweet ts))])).
Proof.
  intros Hevents Hfirst Hstatus Hid Hkey Hcache Hts Hint.
  unfold EventParser.parse_tweet_delete, bind, lift, get, modify, ret.
  rewrite Hevents, Hfirst, Hstatus, Hid, Hkey, Hcache. simpl.
  rewrite Hts, Hint. reflexivity.
Qed.
End tweet_delete_facts.

Lemma tweet_delete_uncached_placeholder_witness :
  EventParser.parse_tweet_delete unit (fun t _ => t) delete_42
    (EventParser.mkHTTPClient unit ∅ [])
  = (Ok VNone,
     EventParser.mkHTTPClient unit ∅
       [("tweet_delete", EventParser.Message unit VNone (VStr "42") 1)]).
Proof.
  apply (tweet_delete_uncached_placeholder (fun t _ => t) delete_42
           (VList [VDict [("status", VDict [("id", VStr "42"); ("user_id", VStr "1")]);
                          ("timestamp_ms", VStr "1000")]])
           (VDict [("status", VDict [("id", VStr "42"); ("user_id", VStr "1")]);
                   ("timestamp_ms", VStr "1000")])
           (VDict [("id", VStr "42"); ("user_id", VStr "1")])
           (VStr "42") 42 (EventParser.mkHTTPClient unit ∅ []));
    reflexivity.
Defined.


(** ** Pagination cursors *)

Lemma cache_numbered_fresh {V : Type} (cache : gmap Z V) :
  cache_numbered cache -> cache !! (Z.of_nat (size cache) + 1) = None.
Proof.
  intros Hnum. destruct (cache !! _) as [v|] eqn:Hk; [|done].
  assert (is_Some (cache !! (Z.of_nat (size cache) + 1))) as Hs by eauto.
  apply Hnum in Hs. lia.
Qed.

Lemma cache_numbered_insert {V : Type} (cache : gmap Z V) (v : V) :
  cache_numbered cache ->
  cache_numbered (<[ Z.of_nat (size cache) + 1 := v ]> cache).
Proof.
  intros Hnum k. rewrite map_size_insert_None by by apply cache_numbered_fresh.
  rewrite lookup_insert. case_decide as Hk.
  - intros _. lia.
  - intros Hs. apply Hnum in Hs. lia.
Qed.

Lemma cache_numbered_singleton {V : Type} (v : V) :
  cache_numbered ({[ 1 := v ]} : gmap Z V).
Proof.
  intros k. rewrite map_size_singleton, lookup_singleton. case_decide; [lia|].
  by intros [? ?].
Qed.

Section pagination_facts.
Import Pagination UserPagination.
Context {Item : Type}.
Variable item_type : value -> Item.
Variable item_id : Item -> Z.
Variable item_eqb : Item -> Item -> bool.
Variable request : list http_request -> http_request -> result value.

Local Abbreviation session := (UserPagination.session (Item := Item)).
Local Abbreviation self := (UserPagination.self (Item := Item)).
Local Abbreviation sent := (UserPagination.sent (Item := Item)).
Local Abbreviation content := (Pagination.content item_type).
Local Abbreviation by_id := (Pagination.by_id item_id).
Local Abbreviation __init__ := (Pagination.__init__ item_type item_id).
Local Abbreviation page_turn := (turn_page item_type item_id item_eqb).
Local Abbreviation next_page := (UserPagination.next_page item_type item_id item_eqb request).
Local Abbreviation previous_page :=
  (UserPagination.previous_page item_type item_id item_eqb request).
Local Abbreviation run_calls := (run item_type item_id item_eqb request).
Local Abbreviation cache_now := (cache_after item_id item_eqb).
Local Abbreviation step_page := (page_step item_type item_id item_eqb request).

Ltac unfold_monad :=
  unfold bind, reads, updates, on_self, modify, lift, ret, raise, get,
    http_client_request, first_item.

(** *** Construction *)

Lemma init_ok (data : value) (endpoint : string) (params : value) (p : Pagination.t) :
  __init__ data endpoint params = Ok p <->
  exists (payload meta next_token previous_token : value) (raw : list value),
    py_get data "data" VNone = Ok payload /\
    py_get data "meta" VNone = Ok meta /\
    py_get meta "next_token" VNone = Ok next_token /\
    py_get meta "previous_token" VNone = Ok previous_token /\
    py_iter payload = Ok raw /\
    p = Pagination.mk data payload meta next_token previous_token 0 0 1 params endpoint
          {[ 1 := by_id (item_type <$> raw) ]}.
Proof.
  unfold Pagination.__init__, Pagination.content, rbind. split.
  - intros H. repeat (case_match; simpl in *; simplify_eq).
    do 5 eexists. repeat split; eauto.
  - intros (payload & meta & nt & pt & raw & H1 & H2 & H3 & H4 & Hraw & ->).
    rewrite H1, H2, H3, H4. simpl. by rewrite Hraw.
Qed.

Lemma init_cache_numbered (data : value) (endpoint : string) (params : value)
    (p : Pagination.t) :
  __init__ data endpoint params = Ok p -> cache_numbered (pages_cache p).
Proof.
  intros (? & ? & ? & ? & ? & _ & _ & _ & _ & _ & ->)%init_ok. simpl.
  apply cache_numbered_singleton.
Qed.

(** A mapping that answers [.get] with a mapping is not empty. *)
Lemma py_get_twice_truthy (o inner : value) (k k' : string) (v : value) :
  py_get o k VNone = Ok inner -> py_get inner k' VNone = Ok v -> truthy o = true.
Proof.
  destruct o as [|b|n|f|str|l|d|]; simpl; try discriminate.
  destruct d as [|kv d]; [|done]. simpl. by intros [= <-].
Qed.

Lemma py_get_raises (o : value) (k : string) (dflt : value) (e : exn) :
  py_get o k dflt = Raise e -> e = AttributeError.
Proof. destruct o; simpl; congruence. Qed.

Lemma py_iter_raises (o : value) (e : exn) : py_iter o = Raise e -> e = TypeError.
Proof. destruct o; simpl; congruence. Qed.

Lemma content_raises (p : Pagination.t) (e : exn) : content p = Raise e -> e = TypeError.
Proof.
  unfold Pagination.content. destruct (py_iter _) eqn:Hit; simpl; [done|].
  intros [= <-]. by eapply py_iter_raises.
Qed.

(** *** One turn of the page *)

(** What [turn_page] does once the response has a [data] and a [meta]: all
    the assignments run; only the comparison of the first items can still
    raise, when one of the two pages is empty. *)
Lemma turn_page_runs (step : Z) (res data meta next_token previous_token : value)
    (raw : list value) (previous_content : list Item) (s : session) :
  content (self s) = Ok previous_content ->
  py_get res "data" VNone = Ok data ->
  py_get res "meta" VNone = Ok meta ->
  py_get meta "next_token" VNone = Ok next_token ->
  py_get meta "previous_token" VNone = Ok previous_token ->
  py_iter data = Ok raw ->
  page_turn step res s
  = match previous_content, item_type <$> raw with
    | before :: _, after :: others =>
        (Ok tt, turned step res data meta next_token previous_token
                  (cache_now before (after :: others) (pages_cache (self s))) s)
    | _, _ =>
        (Raise IndexError, turned step res data meta next_token previous_token
                             (pages_cache (self s)) s)
    end.
Proof.
  intros Hprev Hdata Hmeta Hnext Hback Hraw.
  unfold turn_page. unfold_monad.
  destruct s as [log p]; simpl in *. rewrite Hprev. simpl.
  rewrite Hdata. simpl. rewrite Hmeta. simpl. rewrite Hnext. simpl. rewrite Hback. simpl.
  destruct previous_content as [|before others_before]; simpl.
  { by destruct (item_type <$> raw). }
  unfold Pagination.content; simpl. rewrite Hraw; simpl.
  destruct (item_type <$> raw) as [|after others] eqn:Hnow; simpl; [done|].
  destruct (item_eqb before after); simpl; [done|].
  rewrite Hraw; simpl. by rewrite Hnow.
Qed.

(** When [turn_page] returns, this is what happened. *)
Lemma turn_page_ok (step : Z) (res : value) (s s' : session) :
  page_turn step res s = (Ok tt, s') ->
  exists (data meta next_token previous_token : value) (before after : Item)
         (others_before others_after : list Item),
    content (self s) = Ok (before :: others_before) /\
    py_get res "data" VNone = Ok data /\
    py_get res "meta" VNone = Ok meta /\
    py_get meta "next_token" VNone = Ok next_token /\
    py_get meta "previous_token" VNone = Ok previous_token /\
    content (self s') = Ok (after :: others_after) /\
    s' = turned step res data meta next_token previous_token
           (cache_now before (after :: others_after) (pages_cache (self s))) s.
Proof.
  unfold turn_page. unfold_monad.
  destruct s as [log p]. simpl. intros H.
  repeat (case_match; simpl in *; simplify_eq).
  all: do 8 eexists; split; [reflexivity|]; do 5 (split; [eassumption || reflexivity|]).
  all: unfold turned, cache_after; simpl.
  all: match goal with
       | H : negb (item_eqb ?a ?b) = _ |- _ =>
           destruct (item_eqb a b); simpl in H; try discriminate
       end; reflexivity.
Qed.

(** Whatever the outcome, [turn_page] sends nothing, moves the page number by
    [step] or not at all, never signals the end of the listing, and keeps the
    cache numbered. *)
Lemma turn_page_any (step : Z) (res : value) (s : session) :
  let r := page_turn step res s in
  sent (snd r) = sent s /\
  (_current_page_number (self (snd r)) = _current_page_number (self s) \/
   _current_page_number (self (snd r)) = _current_page_number (self s) + step) /\
  (fst r = Ok tt ->
   _current_page_number (self (snd r)) = _current_page_number (self s) + step) /\
  fst r <> Raise NoPageAvailable /\
  (cache_numbered (pages_cache (self s)) -> cache_numbered (pages_cache (self (snd r)))).
Proof.
  unfold turn_page. unfold_monad.
  destruct s as [log p]. simpl.
  repeat (case_match; simpl in *; simplify_eq).
  all: repeat match goal with
       | H : py_get _ _ _ = Raise _ |- _ => apply py_get_raises in H as ->
       | H : Pagination.content _ _ = Raise _ |- _ => apply content_raises in H as ->
       end.
  all: split_and!; auto; try discriminate.
  all: intros Hnum; by apply cache_numbered_insert.
Qed.

(** *** Fetching a page *)

Lemma next_page_step (s : session) :
  next_page s = step_page (_next_token (self s)) 1 s.
Proof.
  unfold UserPagination.next_page, page_step, turn_page. unfold_monad.
  destruct (truthy (_next_token (self s))); simpl; [|done].
  destruct (py_setitem _ _ _) as [params|e]; simpl; [|done].
  unfold page_request. destruct (request _ _) as [res|e]; simpl; [|done].
  by destruct (truthy res).
Qed.

Lemma previous_page_step (s : session) :
  previous_page s = step_page (_previous_token (self s)) (-1) s.
Proof.
  unfold UserPagination.previous_page, page_step, turn_page. unfold_monad.
  destruct (truthy (_previous_token (self s))); simpl; [|done].
  destruct (py_setitem _ _ _) as [params|e]; simpl; [|done].
  unfold page_request. destruct (request _ _) as [res|e]; simpl; [|done].
  by destruct (truthy res).
Qed.

Lemma page_step_no_token (token : value) (step : Z) (s : session) :
  truthy token = false -> step_page token step s = (Raise NoPageAvailable, s).
Proof. intros Htok. unfold page_step. by rewrite Htok. Qed.

Lemma page_step_any (token : value) (step : Z) (s : session) :
  let r := step_page token step s in
  (_current_page_number (self (snd r)) = _current_page_number (self s) \/
   _current_page_number (self (snd r)) = _current_page_number (self s) + step) /\
  (fst r = Ok tt ->
   _current_page_number (self (snd r)) = _current_page_number (self s) + step) /\
  (fst r = Raise NoPageAvailable ->
   _current_page_number (self (snd r)) = _current_page_number (self s)) /\
  (cache_numbered (pages_cache (self s)) -> cache_numbered (pages_cache (self (snd r)))).
Proof.
  unfold page_step.
  destruct (truthy token); simpl; [|by split_and!; auto].
  destruct (py_setitem _ _ _) as [params|e]; simpl; [|by split_and!; auto].
  destruct (request _ _) as [res|e]; simpl; [|by split_and!; auto].
  destruct (truthy res); simpl; [|by split_and!; auto].
  match goal with |- context [page_turn step res ?s1] =>
    destruct (turn_page_any step res s1) as (_ & Hn & Hok & Hnp & Hc) end.
  simpl in *. split_and!; auto. intros Hr. by destruct Hnp.
Qed.

(** *** Stepping without a token *)

(** C1. When the next token is absent ([None], or anything falsy such as an
    empty string) [next_page] raises [NoPageAvailable] and leaves the session
    as it was: no request is sent and the cursor is untouched; the same holds
    for [previous_page] and the previous token. *)
Theorem no_token_no_fetch (s : session) :
  (truthy (_next_token (self s)) = false ->
   next_page s = (Raise NoPageAvailable, s)) /\
  (truthy (_previous_token (self s)) = false ->
   previous_page s = (Raise NoPageAvailable, s)).
Proof.
  split; intros Htok.
  - rewrite next_page_step. by apply page_step_no_token.
  - rewrite previous_page_step. by apply page_step_no_token.
Qed.

(** *** A successful step forward *)

(** C2. When [next_page] returns, the next token was present and the transport
    answered with a payload; the page number has grown by one; the payload,
    the meta and both tokens are those of the response; and the page cache
    has gained an entry under the key [len(pages_cache) + 1], a key it did not
    have, exactly when the first item of the new content differs from the
    first item of the content before the call (otherwise it is unchanged). *)
Theorem next_page_effect (s s' : session) :
  cache_numbered (pages_cache (self s)) ->
  next_page s = (Ok tt, s') ->
  exists (params res : value) (before after : Item)
         (others_before others_after : list Item),
    truthy (_next_token (self s)) = true /\
    py_setitem (_params (self s)) "pagination_token" (_next_token (self s)) = Ok params /\
    request (sent s) (page_request (endpoint_request (self s)) params) = Ok res /\
    truthy res = true /\
    sent s' = sent s ++ [page_request (endpoint_request (self s)) params] /\
    content (self s) = Ok (before :: others_before) /\
    content (self s') = Ok (after :: others_after) /\
    _current_page_number (self s') = _current_page_number (self s) + 1 /\
    original_payload (self s') = res /\
    py_get res "data" VNone = Ok (_payload (self s')) /\
    py_get res "meta" VNone = Ok (_meta (self s')) /\
    py_get (_meta (self s')) "next_token" VNone = Ok (_next_token (self s')) /\
    py_get (_meta (self s')) "previous_token" VNone = Ok (_previous_token (self s')) /\
    pages_cache (self s) !! (Z.of_nat (size (pages_cache (self s))) + 1) = None /\
    pages_cache (self s')
    = if item_eqb before after then pages_cache (self s)
      else <[ Z.of_nat (size (pages_cache (self s))) + 1
              := by_id (after :: others_after) ]> (pages_cache (self s)).
Proof.
  intros Hnum. rewrite next_page_step. unfold page_step.
  destruct (truthy (_next_token (self s))) eqn:Htok; [|discriminate].
  destruct (py_setitem _ _ _) as [params|e] eqn:Hparams; [|discriminate].
  destruct (request _ _) as [res|e] eqn:Hres; [|discriminate].
  destruct (truthy res) eqn:Htruthy; [|discriminate].
  intros (data & meta & nt & pt & before & after & ob & oa
          & Hbefore & Hdata & Hmeta & Hnt & Hpt & Hafter & ->)%turn_page_ok.
  exists params, res, before, after, ob, oa. simpl in *.
  split_and!; try done. by apply cache_numbered_fresh.
Qed.

(** Conversely, these conditions make [next_page] return. *)
Lemma next_page_returns (s : session) (params res data meta next_token previous_token : value)
    (raw : list value) (before after : Item) (others_before others_after : list Item) :
  truthy (_next_token (self s)) = true ->
  py_setitem (_params (self s)) "pagination_token" (_next_token (self s)) = Ok params ->
  request (sent s) (page_request (endpoint_request (self s)) params) = Ok res ->
  truthy res = true ->
  content (self s) = Ok (before :: others_before) ->
  py_get res "data" VNone = Ok data ->
  py_get res "meta" VNone = Ok meta ->
  py_get meta "next_token" VNone = Ok next_token ->
  py_get meta "previous_token" VNone = Ok previous_token ->
  py_iter data = Ok raw ->
  item_type <$> raw = after :: others_after ->
  fst (next_page s) = Ok tt.
Proof.
  intros Htok Hparams Hres Htruthy Hbefore Hdata Hmeta Hnt Hpt Hraw Hnow.
  rewrite next_page_step. unfold page_step.
  rewrite Htok, Hparams, Hres, Htruthy.
  erewrite turn_page_runs by eauto. by rewrite Hnow.
Qed.

(** *** The page number *)

Lemma init_page_number (data : value) (endpoint : string) (params : value)
    (p : Pagination.t) :
  __init__ data endpoint params = Ok p -> _current_page_number p = 1.
Proof. by intros (? & ? & ? & ? & ? & _ & _ & _ & _ & _ & ->)%init_ok. Qed.

Lemma run_page_number (calls : list call) (s : session) :
  _current_page_number (self s) - count_previous calls
  <= _current_page_number (self (run_calls calls s))
  <= _current_page_number (self s) + count_next calls.
Proof.
  revert s. induction calls as [|c calls IH]; intros s; simpl; [lia|].
  specialize (IH (snd (do_call item_type item_id item_eqb request c s))).
  unfold run in IH |- *.
  destruct c; simpl in *.
  - rewrite next_page_step in *.
    destruct (page_step_any (_next_token (self s)) 1 s) as ([Hn|Hn] & _); simpl in Hn; lia.
  - rewrite previous_page_step in *.
    destruct (page_step_any (_previous_token (self s)) (-1) s) as ([Hn|Hn] & _);
      simpl in Hn; lia.
Qed.

(** C4 (amended). The page number is 1 at construction.  A call that returns
    moves it by exactly one (up for [next_page], down for [previous_page]); a
    call that raises [NoPageAvailable] leaves it alone; no call moves it by
    more than one.  [next_page] keeps it at 1 or above, and so does
    [previous_page] when it is above 1 or the previous token is absent; but
    nothing else bounds it from below: after a run of calls it lies between
    1 minus the number of [previous_page] calls and 1 plus the number of
    [next_page] calls. *)
Theorem page_number_drift (data : value) (endpoint : string) (params : value)
    (p0 : Pagination.t) :
  __init__ data endpoint params = Ok p0 ->
  _current_page_number p0 = 1 /\
  (forall (s : session) (r : result unit) (s' : session),
     next_page s = (r, s') ->
     (r = Ok tt -> _current_page_number (self s') = _current_page_number (self s) + 1) /\
     (r = Raise NoPageAvailable ->
      _current_page_number (self s') = _current_page_number (self s)) /\
     _current_page_number (self s) <= _current_page_number (self s')
       <= _current_page_number (self s) + 1) /\
  (forall (s : session) (r : result unit) (s' : session),
     previous_page s = (r, s') ->
     (r = Ok tt -> _current_page_number (self s') = _current_page_number (self s) - 1) /\
     (r = Raise NoPageAvailable ->
      _current_page_number (self s') = _current_page_number (self s)) /\
     _current_page_number (self s) - 1 <= _current_page_number (self s')
       <= _current_page_number (self s)) /\
  (forall s : session,
     1 <= _current_page_number (self s) ->
     1 <= _current_page_number (self (snd (next_page s)))) /\
  (forall s : session,
     1 <= _current_page_number (self s) ->
     (_current_page_number (self s) = 1 -> truthy (_previous_token (self s)) = false) ->
     1 <= _current_page_number (self (snd (previous_page s)))) /\
  (forall (calls : list call) (log : list http_request),
     1 - count_previous calls
     <= _current_page_number (self (run_calls calls (mkSession log p0)))
     <= 1 + count_next calls).
Proof.
  intros Hinit. pose proof (init_page_number _ _ _ _ Hinit) as H1.
  split_and!; [done| | | | |].
  - intros s r s' Hstep. rewrite next_page_step in Hstep.
    destruct (page_step_any (_next_token (self s)) 1 s) as (Hn & Hok & Hnp & _).
    rewrite Hstep in Hn, Hok, Hnp. simpl in *. split_and!; auto; lia.
  - intros s r s' Hstep. rewrite previous_page_step in Hstep.
    destruct (page_step_any (_previous_token (self s)) (-1) s) as (Hn & Hok & Hnp & _).
    rewrite Hstep in Hn, Hok, Hnp. simpl in *. split_and!; auto; lia.
  - intros s Hs. rewrite next_page_step.
    destruct (page_step_any (_next_token (self s)) 1 s) as (Hn & _). simpl in Hn. lia.
  - intros s Hs Hfirst. rewrite previous_page_step.
    destruct (decide (_current_page_number (self s) = 1)) as [Hone|Hmore].
    + rewrite page_step_no_token by auto. simpl. lia.
    + destruct (page_step_any (_previous_token (self s)) (-1) s) as (Hn & _).
      simpl in Hn. lia.
  - intros calls log.
    pose proof (run_page_number calls (mkSession log p0)) as Hrun. simpl in Hrun. lia.
Qed.

(** The cache stays numbered along every run from a constructed cursor. *)
Lemma run_cache_numbered (calls : list call) (s : session) :
  cache_numbered (pages_cache (self s)) ->
  cache_numbered (pages_cache (self (run_calls calls s))).
Proof.
  revert s. induction calls as [|c calls IH]; intros s Hnum; simpl; [done|].
  apply IH. destruct c; simpl.
  - rewrite next_page_step.
    by destruct (page_step_any (_next_token (self s)) 1 s) as (_ & _ & _ & Hc); apply Hc.
  - rewrite previous_page_step.
    by destruct (page_step_any (_previous_token (self s)) (-1) s) as (_ & _ & _ & Hc);
      apply Hc.
Qed.

(** *** There and back *)

Lemma py_get_other_key (o : value) (k k' : string) (v : value) :
  py_get o k VNone = Ok v -> exists v', py_get o k' VNone = Ok v'.
Proof. destruct o; simpl; try discriminate. eauto. Qed.

Lemma turn_page_state (step : Z) (res data meta next_token previous_token : value)
    (raw : list value) (previous_content : list Item) (s : session) :
  content (self s) = Ok previous_content ->
  py_get res "data" VNone = Ok data ->
  py_get res "meta" VNone = Ok meta ->
  py_get meta "next_token" VNone = Ok next_token ->
  py_get meta "previous_token" VNone = Ok previous_token ->
  py_iter data = Ok raw ->
  exists cache : gmap Z (list (Z * Item)),
    snd (page_turn step res s)
    = turned step res data meta next_token previous_token cache s /\
    (previous_content <> [] -> raw <> [] -> fst (page_turn step res s) = Ok tt).
Proof.
  intros Hprev Hdata Hmeta Hnt Hpt Hraw.
  rewrite (turn_page_runs _ _ _ _ _ _ _ _ _ Hprev Hdata Hmeta Hnt Hpt Hraw).
  destruct previous_content as [|before others_before];
    [|destruct raw as [|x raw]]; simpl; eexists; split; try reflexivity; try done.
Qed.

(** C3. Take a cursor built from a first page that has a next token, and a
    transport that answers the next-token request with a second page (a
    payload with [data] and a [meta] holding a previous token) and the
    following previous-token request with the first page again.  After
    [next_page] and then [previous_page], [content] decodes to the items of
    the first page, so the ids are the same; and both calls return when
    neither page is empty. *)
Theorem next_then_previous_round_trip
    (page1 page2 : value) (endpoint : string) (params : list (string * value))
    (log : list http_request) (p0 : Pagination.t)
    (data2 meta2 token_back : value) (raw2 : list value) :
  __init__ page1 endpoint (VDict params) = Ok p0 ->
  truthy (_next_token p0) = true ->
  request log
    (page_request endpoint
       (VDict (dict_set params "pagination_token" (_next_token p0)))) = Ok page2 ->
  py_get page2 "data" VNone = Ok data2 ->
  py_iter data2 = Ok raw2 ->
  py_get page2 "meta" VNone = Ok meta2 ->
  py_get meta2 "previous_token" VNone = Ok token_back ->
  truthy token_back = true ->
  request
    (log ++ [page_request endpoint
               (VDict (dict_set params "pagination_token" (_next_token p0)))])
    (page_request endpoint
       (VDict (dict_set (dict_set params "pagination_token" (_next_token p0))
                 "pagination_token" token_back))) = Ok page1 ->
  exists original final : list Item,
    content p0 = Ok original /\
    content (self (run_calls [Next; Previous] (mkSession log p0))) = Ok final /\
    final = original /\
    (forall i : Z, i ∈ item_id <$> final <-> i ∈ item_id <$> original) /\
    (original <> [] -> raw2 <> [] ->
     fst (next_page (mkSession log p0)) = Ok tt /\
     fst (previous_page (snd (next_page (mkSession log p0)))) = Ok tt).
Proof.
  intros Hinit Htok Hres2 Hdata2 Hraw2 Hmeta2 Hback Htruthy_back Hres1.
  pose proof Hinit as (payload & meta & nt & pt & raw1 & Hdata1 & Hmeta1 & Hnt1 & Hpt1
                       & Hraw1 & ->)%init_ok.
  simpl in Htok, Hres2, Hres1.
  destruct (py_get_other_key meta2 "previous_token" "next_token" _ Hback) as [nt2 Hnt2].
  assert (Hc0 : content (Pagination.mk page1 payload meta nt pt 0 0 1 (VDict params)
                           endpoint {[1 := by_id (item_type <$> raw1)]})
                = Ok (item_type <$> raw1)).
  { unfold Pagination.content; simpl. by rewrite Hraw1. }
  exists (item_type <$> raw1), (item_type <$> raw1).
  (* the step forward *)
  set (s0 := mkSession log _).
  assert (Hnext : next_page s0
                  = page_turn 1 page2
                      (mkSession
                         (log ++ [page_request endpoint
                                    (VDict (dict_set params "pagination_token" nt))])
                         (set_params (VDict (dict_set params "pagination_token" nt))
                            (self s0)))).
  { rewrite next_page_step. unfold page_step. subst s0. simpl.
    rewrite Htok, Hres2. by rewrite (py_get_twice_truthy _ _ _ _ _ Hmeta2 Hback). }
  match type of Hnext with _ = page_turn _ _ ?s => set (s0' := s) in * end.
  destruct (turn_page_state 1 page2 data2 meta2 nt2 token_back raw2 (item_type <$> raw1) s0')
    as (cache1 & Hs1 & Hok1); try done.
  (* the step back *)
  set (s1 := snd (next_page s0)).
  assert (Hs1' : s1 = turned 1 page2 data2 meta2 nt2 token_back cache1 s0')
    by (subst s1; rewrite Hnext; exact Hs1).
  assert (Hprev : previous_page s1
                  = page_turn (-1) page1
                      (mkSession
                         (sent s1 ++ [page_request endpoint
                            (VDict (dict_set (dict_set params "pagination_token" nt)
                                      "pagination_token" token_back))])
                         (set_params
                            (VDict (dict_set (dict_set params "pagination_token" nt)
                                      "pagination_token" token_back))
                            (self s1)))).
  { rewrite previous_page_step. unfold page_step. rewrite Hs1'. simpl.
    rewrite Htruthy_back, Hres1. by rewrite (py_get_twice_truthy _ _ _ _ _ Hmeta1 Hnt1). }
  match type of Hprev with _ = page_turn _ _ ?s => set (s1' := s) in * end.
  destruct (turn_page_state (-1) page1 payload meta nt pt raw1 (item_type <$> raw2) s1')
    as (cache2 & Hs2 & Hok2); try done.
  { subst s1'. rewrite Hs1'. unfold Pagination.content; simpl. by rewrite Hraw2. }
  split_and!; try done.
  - simpl. fold s0. fold s1. rewrite Hprev, Hs2. unfold Pagination.content; simpl.
    by rewrite Hraw1.
  - intros Hne1 Hne2. split.
    + rewrite Hnext. by apply Hok1.
    + fold s1. rewrite Hprev. apply Hok2; [by destruct raw2 | by destruct raw1].
Qed.

End pagination_facts.

(** ** The cursors of the examples *)
Import Pagination UserPagination.

Example stub_init_page_1 : stub_init page_1 = Ok cursor_1.
Proof. vm_compute. reflexivity. Qed.

Example stub_init_page_2 : stub_init page_2 = Ok cursor_2.
Proof. vm_compute. reflexivity. Qed.

Lemma no_token_no_fetch_witness :
  stub_next_page start_2 = (Raise NoPageAvailable, start_2) /\
  stub_previous_page start_1 = (Raise NoPageAvailable, start_1).
Proof.
  split.
  - apply (proj1 (no_token_no_fetch id raw_id same_id scripted start_2)). reflexivity.
  - apply (proj2 (no_token_no_fetch id raw_id same_id scripted start_1)). reflexivity.
Defined.

Lemma next_page_effect_witness :
  exists (params res : value) (before after : value)
         (others_before others_after : list value),
    truthy (_next_token (self start_1)) = true /\
    py_setitem (_params (self start_1)) "pagination_token" (_next_token (self start_1))
    = Ok params /\
    scripted (sent start_1) (page_request (endpoint_request (self start_1)) params)
    = Ok res /\
    truthy res = true /\
    sent (snd (stub_next_page start_1))
    = sent start_1 ++ [page_request (endpoint_request (self start_1)) params] /\
    content id (self start_1) = Ok (before :: others_before) /\
    content id (self (snd (stub_next_page start_1))) = Ok (after :: others_after) /\
    _current_page_number (self (snd (stub_next_page start_1)))
    = _current_page_number (self start_1) + 1 /\
    original_payload (self (snd (stub_next_page start_1))) = res /\
    py_get res "data" VNone = Ok (_payload (self (snd (stub_next_page start_1)))) /\
    py_get res "meta" VNone = Ok (_meta (self (snd (stub_next_page start_1)))) /\
    py_get (_meta (self (snd (stub_next_page start_1)))) "next_token" VNone
    = Ok (_next_token (self (snd (stub_next_page start_1)))) /\
    py_get (_meta (self (snd (stub_next_page start_1)))) "previous_token" VNone
    = Ok (_previous_token (self (snd (stub_next_page start_1)))) /\
    pages_cache (self start_1) !! (Z.of_nat (size (pages_cache (self start_1))) + 1) = None /\
    pages_cache (self (snd (stub_next_page start_1)))
    = if same_id before after then pages_cache (self start_1)
      else <[ Z.of_nat (size (pages_cache (self start_1))) + 1
              := by_id raw_id (after :: others_after) ]> (pages_cache (self start_1)).
Proof.
  apply (next_page_effect id raw_id same_id scripted start_1 (snd (stub_next_page start_1))).
  - apply (init_cache_numbered id raw_id page_1 "users/1/followers" stub_params).
    vm_compute. reflexivity.
  - vm_compute. reflexivity.
Defined.

Lemma next_then_previous_round_trip_witness :
  exists original final : list value,
    content id cursor_1 = Ok original /\
    content id (self (run id raw_id same_id scripted [Next; Previous] start_1)) = Ok final /\
    final = original /\
    (forall i : Z, i ∈ raw_id <$> final <-> i ∈ raw_id <$> original) /\
    (original <> [] -> [VDict [("id", VStr "3")]] <> [] ->
     fst (stub_next_page start_1) = Ok tt /\
     fst (stub_previous_page (snd (stub_next_page start_1))) = Ok tt).
Proof.
  apply (next_then_previous_round_trip id raw_id same_id scripted
           page_1 page_2 "users/1/followers" [("max_results", VInt 2)] [] cursor_1
           (VList [VDict [("id", VStr "3")]])
           (VDict [("result_count", VInt 1); ("previous_token", VStr "t1")])
           (VStr "t1") [VDict [("id", VStr "3")]]);
    vm_compute; reflexivity.
Defined.

Lemma page_number_drift_witness :
  _current_page_number cursor_1 = 1 /\
  forall (calls : list call) (log : list http_request),
    1 - count_previous calls
    <= _current_page_number
         (self (run id raw_id same_id scripted calls (mkSession log cursor_1)))
    <= 1 + count_next calls.
Proof.
  destruct (page_number_drift id raw_id same_id scripted page_1 "users/1/followers"
              stub_params cursor_1) as (Hone & _ & _ & _ & _ & Hrun).
  - vm_compute. reflexivity.
  - split; [exact Hone | exact Hrun].
Defined.

(** The page number does not stay at 1 or above: a cursor built from a page
    that carries a previous token steps back to page number 0. *)
Lemma page_number_falls_to_zero :
  stub_init page_2 = Ok cursor_2 /\
  _current_page_number cursor_2 = 1 /\
  fst (stub_previous_page start_2) = Ok tt /\
  _current_page_number (self (snd (stub_previous_page start_2))) = 0.
Proof. vm_compute. repeat split; reflexivity. Qed.

(** The key of a new cache entry is the number of entries, not the page
    number: back on page number 1, the first page is cached again under 3. *)
Example cache_key_is_count :
  let s := run id raw_id same_id scripted [Next; Previous] start_1 in
  _current_page_number (self s) = 1 /\
  pages_cache (self s) !! 3 = Some [(1, VDict [("id", VStr "1")]); (2, VDict [("id", VStr "2")])].
Proof. vm_compute. split; reflexivity. Qed.

(** * Further properties *)

(** ** More on dictionaries *)
Section pydict_more.
Context {K V : Type} `{EqDecision K}.
Implicit Types (d : list (K * V)) (k : K) (v : V).

Lemma dict_set_same d k v : dict_get d k = Some v -> dict_set d k v = d.
Proof.
  induction d as [|[k' v'] d IH]; simpl; [done|].
  destruct (decide (k = k')) as [->|Hne].
  - by intros [= ->].
  - intros Hget. by rewrite IH.
Qed.

Lemma dict_has_get d k : dict_has d k = true <-> is_Some (dict_get d k).
Proof.
  unfold dict_has. destruct (dict_get d k) as [v|]; split; intros Hs; eauto.
  - done.
  - by destruct Hs.
Qed.

Lemma dict_has_false d k : dict_has d k = false <-> dict_get d k = None.
Proof. unfold dict_has. by destruct (dict_get d k). Qed.

Lemma dict_get_del_ne d k k' : k <> k' -> dict_get (dict_del d k) k' = dict_get d k'.
Proof.
  intros Hne. induction d as [|[k'' v''] d IH]; simpl; [done|].
  destruct (decide (k = k'')) as [->|Hne']; simpl.
  - by rewrite decide_False.
  - by rewrite IH.
Qed.

Lemma dict_get_del_eq d k : dict_wf d -> dict_get (dict_del d k) k = None.
Proof.
  unfold dict_wf. induction d as [|[k' v'] d IH]; simpl; [done|].
  intros [Hnin Hnd]%NoDup_cons.
  destruct (decide (k = k')) as [->|Hne]; simpl.
  - by apply dict_get_None.
  - rewrite decide_False by done. by apply IH.
Qed.

Lemma dict_get_In d k v : dict_get d k = Some v -> (k, v) ∈ d.
Proof.
  induction d as [|[k' v'] d IH]; simpl; [done|].
  destruct (decide (k = k')) as [->|Hne].
  - intros [= ->]. left.
  - intros Hget. right. by apply IH.
Qed.

Lemma dict_keys_set d k v :
  (dict_set d k v).*1 = if dict_has d k then d.*1 else d.*1 ++ [k].
Proof.
  unfold dict_has. induction d as [|[k' v'] d IH]; [done|].
  cbn [dict_set dict_get].
  destruct (decide (k = k')) as [->|Hne]; [done|].
  rewrite !fmap_cons, IH. by destruct (dict_get d k).
Qed.

Lemma dict_wf_set d k v : dict_wf d -> dict_wf (dict_set d k v).
Proof.
  unfold dict_wf. rewrite dict_keys_set. intros Hnd.
  destruct (dict_has d k) eqn:Hhas; [done|].
  apply dict_has_false, dict_get_None in Hhas.
  apply NoDup_app. split_and!; [done| |apply NoDup_singleton].
  intros x Hx ->%list_elem_of_singleton. done.
Qed.
End pydict_more.

(** ** PayloadParser.parse_user_payload, continued *)

Lemma parse_user_payload_closed (P : list (string * value)) :
  PayloadParser.parse_user_payload (VDict P) = Ok (VDict (user_parsed P)).
Proof.
  unfold PayloadParser.parse_user_payload, user_parsed, copy_entry; simpl.
  set (c1 := dict_set P "public_metrics" _).
  unfold dict_has at 1. destruct (dict_get c1 "created_timestamp") as [v1|]; simpl.
  all: match goal with |- context [dict_has ?c "screen_name"] => set (c2 := c) end.
  all: unfold dict_has at 1; destruct (dict_get c2 "screen_name") as [v2|]; simpl.
  all: match goal with |- context [dict_has ?c "profile_image_url_https"] => set (c3 := c) end.
  all: unfold dict_has at 1; destruct (dict_get c3 "profile_image_url_https") as [v3|]; done.
Qed.

Lemma copy_entry_get_other (src dst k : string) (d : list (string * value)) :
  dst <> k -> dict_get (copy_entry src dst d) k = dict_get d k.
Proof.
  intros Hne. unfold copy_entry. destruct (dict_get d src); [|done].
  by apply dict_get_set_ne.
Qed.

Lemma copy_entry_get_dst (src dst : string) (d : list (string * value)) :
  dict_get (copy_entry src dst d) dst
  = match dict_get d src with Some v => Some v | None => dict_get d dst end.
Proof.
  unfold copy_entry. destruct (dict_get d src); [|done]. apply dict_get_set_eq.
Qed.

Lemma copy_entry_same (src dst : string) (d : list (string * value)) :
  (forall v, dict_get d src = Some v -> dict_get d dst = Some v) ->
  copy_entry src dst d = d.
Proof.
  intros Hsame. unfold copy_entry. destruct (dict_get d src) as [v|] eqn:Hsrc; [|done].
  apply dict_set_same. by apply Hsame.
Qed.

Lemma user_parsed_get_other (P : list (string * value)) (k : string) :
  k ∉ user_written -> dict_get (user_parsed P) k = dict_get P k.
Proof.
  unfold user_written. rewrite !not_elem_of_cons. intros (H1 & H2 & H3 & H4 & _).
  unfold user_parsed.
  rewrite !copy_entry_get_other by done. by apply dict_get_set_ne.
Qed.

Lemma user_parsed_get_public_metrics (P : list (string * value)) :
  dict_get (user_parsed P) "public_metrics" = Some (user_public_metrics P).
Proof.
  unfold user_parsed. rewrite !copy_entry_get_other by done. apply dict_get_set_eq.
Qed.

Lemma user_parsed_get_created_at (P : list (string * value)) :
  dict_get (user_parsed P) "created_at"
  = match dict_get P "created_timestamp" with
    | Some v => Some v
    | None => dict_get P "created_at"
    end.
Proof.
  unfold user_parsed. rewrite !copy_entry_get_other by done.
  rewrite copy_entry_get_dst. by rewrite !dict_get_set_ne by done.
Qed.

Lemma user_parsed_get_username (P : list (string * value)) :
  dict_get (user_parsed P) "username"
  = match dict_get P "screen_name" with
    | Some v => Some v
    | None => dict_get P "username"
    end.
Proof.
  unfold user_parsed. rewrite !copy_entry_get_other by done.
  rewrite copy_entry_get_dst. rewrite !copy_entry_get_other by done.
  by rewrite !dict_get_set_ne by done.
Qed.

Lemma user_parsed_get_profile_image_url (P : list (string * value)) :
  dict_get (user_parsed P) "profile_image_url"
  = match dict_get P "profile_image_url_https" with
    | Some v => Some v
    | None => dict_get P "profile_image_url"
    end.
Proof.
  unfold user_parsed.
  rewrite copy_entry_get_dst. rewrite !copy_entry_get_other by done.
  by rewrite !dict_get_set_ne by done.
Qed.

(** X1. [parse_user_payload] returns a mapping that keeps every entry of its
    argument except under the four keys it writes, and in which [created_at],
    [username] and [profile_image_url] hold the legacy [created_timestamp],
    [screen_name] and [profile_image_url_https] when the argument has them,
    and are as in the argument when it has not. *)
Theorem parse_user_payload_entries (P : list (string * value)) :
  exists copy : list (string * value),
    PayloadParser.parse_user_payload (VDict P) = Ok (VDict copy) /\
    (forall k : string, k ∉ user_written -> dict_get copy k = dict_get P k) /\
    dict_get copy "created_at"
    = match dict_get P "created_timestamp" with
      | Some v => Some v
      | None => dict_get P "created_at"
      end /\
    dict_get copy "username"
    = match dict_get P "screen_name" with
      | Some v => Some v
      | None => dict_get P "username"
      end /\
    dict_get copy "profile_image_url"
    = match dict_get P "profile_image_url_https" with
      | Some v => Some v
      | None => dict_get P "profile_image_url"
      end.
Proof.
  exists (user_parsed P). split_and!.
  - apply parse_user_payload_closed.
  - intros k Hk. by apply user_parsed_get_other.
  - apply user_parsed_get_created_at.
  - apply user_parsed_get_username.
  - apply user_parsed_get_profile_image_url.
Qed.

Lemma user_parsed_idempotent (P : list (string * value)) :
  user_parsed (user_parsed P) = user_parsed P.
Proof.
  set (c := user_parsed P).
  assert (Hpm : user_public_metrics c = user_public_metrics P).
  { unfold user_public_metrics. subst c.
    by rewrite !user_parsed_get_other
      by (unfold user_written; rewrite !not_elem_of_cons; split_and!; try done;
          apply not_elem_of_nil). }
  unfold user_parsed at 1. rewrite Hpm.
  rewrite (dict_set_same c) by apply user_parsed_get_public_metrics.
  rewrite (copy_entry_same "created_timestamp" "created_at").
  2:{ intros v Hv. subst c. rewrite user_parsed_get_created_at.
      rewrite user_parsed_get_other in Hv
        by (unfold user_written; rewrite !not_elem_of_cons; split_and!; try done;
            apply not_elem_of_nil).
      by rewrite Hv. }
  rewrite (copy_entry_same "screen_name" "username").
  2:{ intros v Hv. subst c. rewrite user_parsed_get_username.
      rewrite user_parsed_get_other in Hv
        by (unfold user_written; rewrite !not_elem_of_cons; split_and!; try done;
            apply not_elem_of_nil).
      by rewrite Hv. }
  rewrite (copy_entry_same "profile_image_url_https" "profile_image_url"); [done|].
  intros v Hv. subst c. rewrite user_parsed_get_profile_image_url.
  rewrite user_parsed_get_other in Hv
    by (unfold user_written; rewrite !not_elem_of_cons; split_and!; try done;
        apply not_elem_of_nil).
  by rewrite Hv.
Qed.

(** X2. [parse_user_payload] is idempotent: applied to what it returned for a
    mapping, it returns the same mapping again. *)
Theorem parse_user_payload_idempotent (P : list (string * value)) :
  exists copy : list (string * value),
    PayloadParser.parse_user_payload (VDict P) = Ok (VDict copy) /\
    PayloadParser.parse_user_payload (VDict copy) = Ok (VDict copy).
Proof.
  exists (user_parsed P). split; [apply parse_user_payload_closed|].
  rewrite parse_user_payload_closed. by rewrite user_parsed_idempotent.
Qed.

(** ** PayloadParser.parse_tweet_payload, continued *)

Lemma mapM_screen_names (users : list value) :
  Forall is_mapping users ->
  mapM (fun user => py_get user "screen_name" VNone) users = Ok (screen_name_of <$> users).
Proof.
  intros Hmaps. rewrite (mapM_ext _ (fun user => Ok (screen_name_of user))).
  - apply mapM_total.
  - intros u Hu. rewrite Forall_forall in Hmaps. by destruct (Hmaps u Hu) as [d ->].
Qed.

Lemma dict_has_set_ne {V : Type} (d : list (string * V)) (k k' : string) (v : V) :
  k <> k' -> dict_has (dict_set d k v) k' = dict_has d k'.
Proof. intros Hne. unfold dict_has. by rewrite dict_get_set_ne. Qed.

Ltac unfold_parser :=
  unfold PayloadParser.parse_tweet_payload, PayloadParser.insert_object_author,
    PayloadParser.parse_embed_data, bind, reads, updates, lift, ret, get.

(** X3. For a tweet payload whose [entities.user_mentions] is a list of
    mappings and whose [user] entry, if any, is a mapping,
    [parse_tweet_payload] returns the payload itself, changed under three keys
    only: [public_metrics] holds the legacy counters; [includes] holds the
    screen names of the mentions, one per mention and in their order, and,
    when there is a user, a one-element list with its normalised copy;
    [timestamp] holds [timestamp_ms] when the payload has one. *)
Theorem parse_tweet_payload_returns
    (P entities : list (string * value)) (users : list value) :
  dict_get P "entities" = Some (VDict entities) ->
  dict_get entities "user_mentions" = Some (VList users) ->
  Forall is_mapping users ->
  match dict_get P "user" with Some u => is_mapping u | None => True end ->
  exists d : list (string * value),
    PayloadParser.parse_tweet_payload (VDict P) = (Ok (VDict d), VDict d) /\
    (forall k : string, k ∉ tweet_written -> dict_get d k = dict_get P k) /\
    dict_get d "public_metrics" = Some (tweet_public_metrics P) /\
    dict_get d "includes" = Some (tweet_includes users (dict_get P "user")) /\
    dict_get d "timestamp"
    = match dict_get P "timestamp_ms" with
      | Some v => Some v
      | None => dict_get P "timestamp"
      end.
Proof.
  intros Hent Hum Hmaps Huser. unfold_parser. simpl.
  rewrite !dict_get_set_ne by done. rewrite Hent. simpl. rewrite Hum. simpl.
  rewrite mapM_screen_names by done. simpl.
  rewrite dict_get_set_eq. simpl.
  rewrite !dict_has_set_ne by done.
  destruct (dict_get P "timestamp_ms") as [ts|] eqn:Hts;
    unfold dict_has at 1; rewrite Hts; simpl.
  - rewrite !dict_get_set_ne by done. rewrite Hts. simpl.
    rewrite !dict_has_set_ne by done. unfold dict_has.
    destruct (dict_get P "user") as [user|] eqn:Hu; simpl.
    + destruct Huser as [u ->]. rewrite !dict_get_set_ne by done. rewrite Hu. simpl.
      rewrite parse_user_payload_closed. simpl.
      rewrite dict_get_set_eq. simpl.
      eexists. split; [reflexivity|]. split_and!.
      * intros k. unfold tweet_written. rewrite !not_elem_of_cons. intros (?&?&?&_).
        by rewrite !dict_get_set_ne by done.
      * rewrite !dict_get_set_ne by done. apply dict_get_set_eq.
      * by rewrite dict_get_set_eq.
      * rewrite !dict_get_set_ne by done. apply dict_get_set_eq.
    + eexists. split; [reflexivity|]. split_and!.
      * intros k. unfold tweet_written. rewrite !not_elem_of_cons. intros (?&?&?&_).
        by rewrite !dict_get_set_ne by done.
      * rewrite !dict_get_set_ne by done. apply dict_get_set_eq.
      * rewrite !dict_get_set_ne by done. by rewrite dict_get_set_eq.
      * apply dict_get_set_eq.
  - rewrite !dict_has_set_ne by done. unfold dict_has.
    destruct (dict_get P "user") as [user|] eqn:Hu; simpl.
    + destruct Huser as [u ->]. rewrite !dict_get_set_ne by done. rewrite Hu. simpl.
      rewrite parse_user_payload_closed. simpl.
      rewrite dict_get_set_eq. simpl.
      eexists. split; [reflexivity|]. split_and!.
      * intros k. unfold tweet_written. rewrite !not_elem_of_cons. intros (?&?&?&_).
        by rewrite !dict_get_set_ne by done.
      * rewrite !dict_get_set_ne by done. apply dict_get_set_eq.
      * by rewrite dict_get_set_eq.
      * by rewrite !dict_get_set_ne by done.
    + eexists. split; [reflexivity|]. split_and!.
      * intros k. unfold tweet_written. rewrite !not_elem_of_cons. intros (?&?&?&_).
        by rewrite !dict_get_set_ne by done.
      * rewrite !dict_get_set_ne by done. apply dict_get_set_eq.
      * by rewrite dict_get_set_eq.
      * by rewrite !dict_get_set_ne by done.
Qed.

Lemma parse_tweet_payload_returns_witness :
  exists d : list (string * value),
    PayloadParser.parse_tweet_payload (VDict full_tweet) = (Ok (VDict d), VDict d) /\
    (forall k : string, k ∉ tweet_written -> dict_get d k = dict_get full_tweet k) /\
    dict_get d "public_metrics" = Some (tweet_public_metrics full_tweet) /\
    dict_get d "includes"
    = Some (tweet_includes
              [VDict [("screen_name", VStr "ann")]; VDict [("screen_name", VStr "bob")]]
              (dict_get full_tweet "user")) /\
    dict_get d "timestamp"
    = match dict_get full_tweet "timestamp_ms" with
      | Some v => Some v
      | None => dict_get full_tweet "timestamp"
      end.
Proof.
  apply (parse_tweet_payload_returns full_tweet
           [("user_mentions",
             VList [VDict [("screen_name", VStr "ann")];
                    VDict [("screen_name", VStr "bob")]])]
           [VDict [("screen_name", VStr "ann")]; VDict [("screen_name", VStr "bob")]]).
  - reflexivity.
  - reflexivity.
  - repeat constructor; eexists; reflexivity.
  - simpl. eexists; reflexivity.
Defined.

(** X4. On a tweet payload whose [entities] entry is missing or is not a
    mapping, [parse_tweet_payload] raises [AttributeError], and by then it
    has already written [public_metrics] and an empty [includes] into the
    payload. *)
Theorem parse_tweet_payload_without_entities (P : list (string * value)) :
  (forall e, dict_get P "entities" <> Some (VDict e)) ->
  PayloadParser.parse_tweet_payload (VDict P)
  = (Raise AttributeError,
     VDict (dict_set (dict_set P "public_metrics" (tweet_public_metrics P))
              "includes" (VDict []))).
Proof.
  intros Hent. unfold_parser. simpl.
  rewrite !dict_get_set_ne by done.
  destruct (dict_get P "entities") as [[|b|n|f|s|l|e|]|]; simpl; try reflexivity.
  by destruct (Hent e).
Qed.

Lemma parse_tweet_payload_without_entities_witness :
  PayloadParser.parse_tweet_payload (VDict [("id", VStr "7")])
  = (Raise AttributeError,
     VDict (dict_set (dict_set [("id", VStr "7")] "public_metrics"
                        (tweet_public_metrics [("id", VStr "7")]))
              "includes" (VDict []))).
Proof.
  apply (parse_tweet_payload_without_entities [("id", VStr "7")]).
  intros e. discriminate.
Defined.

(** ** PayloadParser.parse_metric_data, continued *)

Lemma dict_get_fmap_values (f : value -> value) (d : list (string * value)) (k : string) :
  dict_get (prod_map id f <$> d) k = (f <$> dict_get d k).
Proof.
  induction d as [|[k' v'] d IH]; simpl; [done|].
  by destruct (decide (k = k')).
Qed.

(** X5. On a mapping none of whose values is an infinite float,
    [parse_metric_data] returns a new mapping with the same keys in the same
    order, where each value is replaced by its integer when [int] accepts it
    and by the marker [object] otherwise; so every value of the result is an
    integer or the marker. *)
Theorem parse_metric_data_same_keys (payload : list (string * value)) :
  dict_wf payload ->
  (forall k v, (k, v) ∈ payload -> ~ infinite_float v) ->
  exists d : list (string * value),
    PayloadParser.parse_metric_data (VDict payload) = Ok (VDict d) /\
    d.*1 = payload.*1 /\
    (forall k : string, dict_get d k = (metric_value <$> dict_get payload k)) /\
    (forall (k : string) (v : value),
       dict_get d k = Some v -> (exists n : Z, v = VInt n) \/ v = VObject).
Proof.
  intros Hwf Hfin. exists (prod_map id metric_value <$> payload). split_and!.
  - by apply parse_metric_data_converts.
  - rewrite <- list_fmap_compose. apply list_fmap_ext. by intros i [k v].
  - intros k. apply dict_get_fmap_values.
  - intros k v. rewrite dict_get_fmap_values.
    destruct (dict_get payload k) as [w|]; simpl; [|done].
    intros [= <-]. unfold metric_value. destruct (py_int w); eauto.
Qed.

Lemma parse_metric_data_same_keys_witness :
  exists d : list (string * value),
    PayloadParser.parse_metric_data
      (VDict [("a", VStr "12"); ("b", VStr "x");
              ("c", VFloat (S754_finite false 15 (-2)))])
    = Ok (VDict d) /\
    d.*1 = ["a"; "b"; "c"] /\
    (forall k : string,
       dict_get d k
       = (metric_value <$> dict_get [("a", VStr "12"); ("b", VStr "x");
                                     ("c", VFloat (S754_finite false 15 (-2)))] k)) /\
    (forall (k : string) (v : value),
       dict_get d k = Some v -> (exists n : Z, v = VInt n) \/ v = VObject).
Proof.
  apply (parse_metric_data_same_keys
           [("a", VStr "12"); ("b", VStr "x"); ("c", VFloat (S754_finite false 15 (-2)))]).
  - unfold dict_wf; simpl. apply (bool_decide_unpack _). vm_compute. exact I.
  - intros k v Hin [s ->].
    repeat (apply elem_of_cons in Hin as [Hin|Hin]; [discriminate|]).
    by apply elem_of_nil in Hin.
Defined.

(** ** PayloadParser.parse_embed_data *)

(** X6. On a mapping, [parse_embed_data] returns the mapping itself, in which
    [status_code] holds the status when there is a truthy one and else what
    [status_code] held ([None] when absent), no truthy [status] is left, and
    every other entry is as before; applied again it changes nothing. *)
Theorem parse_embed_data_normalises (P : list (string * value)) :
  dict_wf P ->
  exists d : list (string * value),
    PayloadParser.parse_embed_data (VDict P) = (Ok (VDict d), VDict d) /\
    dict_get d "status_code"
    = Some (if truthy (embed_status P) then embed_status P
            else default VNone (dict_get P "status_code")) /\
    truthy (embed_status d) = false /\
    (forall k : string, k <> "status" -> k <> "status_code" -> dict_get d k = dict_get P k) /\
    PayloadParser.parse_embed_data (VDict d) = (Ok (VDict d), VDict d).
Proof.
  intros Hwf. unfold_parser. unfold embed_status. simpl.
  destruct (truthy (default VNone (dict_get P "status"))) eqn:Hst; simpl.
  - rewrite dict_get_set_ne by done. rewrite Hst. simpl.
    assert (Hhas : dict_has (dict_set P "status_code" (default VNone (dict_get P "status")))
                     "status" = true).
    { rewrite dict_has_set_ne by done. unfold dict_has.
      destruct (dict_get P "status"); [done|discriminate]. }
    rewrite Hhas. simpl.
    set (d := dict_del _ "status").
    assert (Hnone : dict_get d "status" = None).
    { subst d. apply dict_get_del_eq. by apply dict_wf_set. }
    assert (Hcode : dict_get d "status_code" = Some (default VNone (dict_get P "status"))).
    { subst d. rewrite dict_get_del_ne by done. apply dict_get_set_eq. }
    exists d. split_and!; try done.
    + by rewrite Hnone.
    + intros k H1 H2. subst d. rewrite dict_get_del_ne by done.
      by rewrite dict_get_set_ne by done.
    + rewrite Hnone. simpl. rewrite Hcode. simpl.
      rewrite (dict_set_same d) by done. by rewrite Hnone.
  - rewrite dict_get_set_ne by done. rewrite Hst. simpl.
    set (d := dict_set P "status_code" _).
    assert (Hstatus : dict_get d "status" = dict_get P "status").
    { subst d. by rewrite dict_get_set_ne by done. }
    assert (Hcode : dict_get d "status_code"
                    = Some (default VNone (dict_get P "status_code"))).
    { subst d. apply dict_get_set_eq. }
    exists d. split_and!; try done.
    + by rewrite Hstatus.
    + intros k H1 H2. subst d. by rewrite dict_get_set_ne by done.
    + rewrite Hstatus, Hst. simpl. rewrite Hcode. simpl.
      rewrite (dict_set_same d) by done. by rewrite Hstatus, Hst.
Qed.

Lemma parse_embed_data_normalises_witness :
  exists d : list (string * value),
    PayloadParser.parse_embed_data (VDict [("status", VInt 404); ("title", VStr "t")])
    = (Ok (VDict d), VDict d) /\
    dict_get d "status_code"
    = Some (if truthy (embed_status [("status", VInt 404); ("title", VStr "t")])
            then embed_status [("status", VInt 404); ("title", VStr "t")]
            else default VNone
                   (dict_get [("status", VInt 404); ("title", VStr "t")] "status_code")) /\
    truthy (embed_status d) = false /\
    (forall k : string, k <> "status" -> k <> "status_code" ->
       dict_get d k = dict_get [("status", VInt 404); ("title", VStr "t")] k) /\
    PayloadParser.parse_embed_data (VDict d) = (Ok (VDict d), VDict d).
Proof.
  apply (parse_embed_data_normalises [("status", VInt 404); ("title", VStr "t")]).
  unfold dict_wf; simpl. apply (bool_decide_unpack _). vm_compute. exact I.
Defined.

(** ** PayloadParser.insert_object_author *)

(** X7. On a mapping, [insert_object_author] returns the mapping itself with
    [includes] replaced by the one-author mapping [{users: [author]}]:
    whatever [includes] held before (mentions, users) is gone, and every other
    entry is as before. *)
Theorem insert_object_author_replaces_includes
    (P : list (string * value)) (author : value) :
  exists d : list (string * value),
    PayloadParser.insert_object_author author (VDict P) = (Ok (VDict d), VDict d) /\
    dict_get d "includes" = Some (VDict [("users", VList [author])]) /\
    (forall k : string, k <> "includes" -> dict_get d k = dict_get P k).
Proof.
  unfold_parser. simpl. rewrite dict_get_set_eq. simpl.
  eexists. split; [reflexivity|]. split.
  - apply dict_get_set_eq.
  - intros k Hk. by rewrite !dict_get_set_ne by done.
Qed.

(** ** PayloadParser.insert_pagination_object_author, continued *)

(** X8. For a page payload without an [includes] entry,
    [insert_pagination_object_author] raises nothing: every wrapper carries
    [None] as its one author. *)
Theorem insert_pagination_object_author_without_includes
    (payload : list (string * value)) (data : list value) :
  dict_get payload "data" = Some (VList data) ->
  dict_get payload "includes" = None ->
  PayloadParser.insert_pagination_object_author (VDict payload)
  = Ok (VList (author_wrapped VNone <$> data)).
Proof.
  intros Hdata Hinc. unfold PayloadParser.insert_pagination_object_author; simpl.
  rewrite Hdata; simpl.
  rewrite (mapM_ext _ (fun item => Ok (author_wrapped VNone item))).
  - by rewrite mapM_total.
  - intros item _. by apply author_wrapper_default.
Qed.

Lemma insert_pagination_object_author_without_includes_witness :
  PayloadParser.insert_pagination_object_author
    (VDict [("data", VList [VStr "t1"; VStr "t2"])])
  = Ok (VList (author_wrapped VNone <$> [VStr "t1"; VStr "t2"])).
Proof.
  apply (insert_pagination_object_author_without_includes
           [("data", VList [VStr "t1"; VStr "t2"])] [VStr "t1"; VStr "t2"]);
    reflexivity.
Defined.

(** X9. When [includes.users] is an empty list, the call raises [IndexError]
    as soon as the page has an item, and returns the empty list when it has
    none. *)
Theorem insert_pagination_object_author_no_users
    (payload includes : list (string * value)) (data : list value) :
  dict_get payload "data" = Some (VList data) ->
  dict_get payload "includes" = Some (VDict includes) ->
  dict_get includes "users" = Some (VList []) ->
  PayloadParser.insert_pagination_object_author (VDict payload)
  = match data with
    | [] => Ok (VList [])
    | _ :: _ => Raise IndexError
    end.
Proof.
  intros Hdata Hinc Husers. unfold PayloadParser.insert_pagination_object_author; simpl.
  rewrite Hdata; simpl. destruct data as [|item data]; simpl; [done|].
  unfold PayloadParser.author_wrapper; simpl. rewrite Hinc; simpl. by rewrite Husers.
Qed.

Lemma insert_pagination_object_author_no_users_witness :
  PayloadParser.insert_pagination_object_author
    (VDict [("data", VList [VStr "t1"]); ("includes", VDict [("users", VList [])])])
  = Raise IndexError.
Proof.
  apply (insert_pagination_object_author_no_users
           [("data", VList [VStr "t1"]); ("includes", VDict [("users", VList [])])]
           [("users", VList [])] [VStr "t1"]);
    reflexivity.
Defined.

(** ** Event.__init__ and Event.type *)

(** X10. On a delivery mapping, [Event.__init__] raises [IndexError] when the
    mapping has fewer than two keys; otherwise its outcome is that of taking
    element 0 of the value under the second key: the event when there is one,
    [IndexError] for an empty array, [KeyError] for a mapping, [TypeError]
    for a value that cannot be subscripted. *)
Theorem event_init_outcome (data : list (string * value)) :
  dict_wf data ->
  Event.__init__ (VDict data)
  = match data with
    | _ :: (family, events) :: _ =>
        match events with
        | VList (body :: _) => Ok (Event.mk family body)
        | VList [] => Raise IndexError
        | VStr (String c _) => Ok (Event.mk family (VStr (String c EmptyString)))
        | VStr EmptyString => Raise IndexError
        | VDict _ => Raise KeyError
        | _ => Raise TypeError
        end
    | _ => Raise IndexError
    end.
Proof.
  intros Hwf. unfold Event.__init__; simpl.
  destruct data as [|[k0 v0] [|[k1 v1] others]]; simpl; try reflexivity.
  rewrite decide_False.
  - rewrite decide_True by done. simpl.
    destruct v1 as [|b|n|f|s|l|d|]; simpl; try reflexivity.
    + by destruct s.
    + by destruct l.
  - intros ->. apply NoDup_cons in Hwf as [Hnin _]. apply Hnin. simpl. left.
Qed.

Lemma event_init_outcome_witness :
  Event.__init__ (VDict [("for_user_id", VStr "1")]) = Raise IndexError.
Proof.
  apply (event_init_outcome [("for_user_id", VStr "1")]).
  unfold dict_wf; simpl. apply (bool_decide_unpack _). vm_compute. exact I.
Defined.

Lemma eqb_false_of_ne (a b : string) : a <> b -> String.eqb a b = false.
Proof. intros Hne. by apply String.eqb_neq. Qed.

(** X11. The [type] property has a value exactly for the five enumerated
    families: for any other family (favorite, tweet-create, tweet-delete and
    direct-message deliveries among them) it raises [ValueError]; and a
    [mute_events] delivery has the type [unmute]. *)
Theorem event_type_families (e : Event.t) :
  (Event._type e ∈ typed_families -> exists t, Event.type e = Ok t) /\
  (Event._type e ∉ typed_families -> Event.type e = Raise ValueError) /\
  (Event._type e = "mute_events" -> Event.type e = Ok (inr unmute)).
Proof.
  destruct e as [family body]. unfold Event.type, typed_families. simpl. split_and!.
  - rewrite !elem_of_cons.
    intros [->|[->|[->|[->|[->|Hnil]]]]]; try (eexists; reflexivity).
    by apply elem_of_nil in Hnil.
  - rewrite !not_elem_of_cons. intros (H1 & H2 & H3 & H4 & H5 & _).
    unfold ActionEventType_of, UserActionEventType_of.
    by rewrite !eqb_false_of_ne by done.
  - by intros ->.
Qed.

Lemma event_type_families_witness :
  Event.type (Event.mk "favorite_events" (VDict [])) = Raise ValueError.
Proof.
  apply (proj1 (proj2 (event_type_families (Event.mk "favorite_events" (VDict []))))).
  unfold typed_families. simpl. apply (bool_decide_unpack _). vm_compute. exact I.
Defined.

(** ** EventParser, continued *)
Section event_parser_more.
Context {Tweet : Type}.
Variable set_deleted_timestamp : Tweet -> Z -> Tweet.
Variable Tweet_new : value -> Tweet.
Variable Tweet_id : Tweet -> Z.

Local Abbreviation parse_tweet_delete :=
  (EventParser.parse_tweet_delete Tweet set_deleted_timestamp).
Local Abbreviation parse_tweet_create :=
  (EventParser.parse_tweet_create Tweet Tweet_new Tweet_id).
Local Abbreviation HTTPClient := (EventParser.HTTPClient Tweet).
Local Abbreviation tweet_cache := (EventParser.tweet_cache Tweet).
Local Abbreviation dispatches := (EventParser.dispatches Tweet).
Local Abbreviation ATweet := (EventParser.ATweet Tweet).

(** X12. When the deleted tweet is in the cache, [parse_tweet_delete] returns
    normally; afterwards the tweet is no longer cached, the other cache
    entries are untouched, and exactly one dispatch has been added, on
    ["tweet_delete"], of the cached tweet itself stamped with the event's
    timestamp. *)
Theorem tweet_delete_cached_effect
    (tweet_payload events event_payload status tweet_id timestamp_ms : value)
    (key ts : Z) (tweet : Tweet) (http : HTTPClient) :
  py_get tweet_payload "tweet_delete_events" VNone = Ok events ->
  py_first events = Ok event_payload ->
  py_get event_payload "status" VNone = Ok status ->
  py_get status "id" VNone = Ok tweet_id ->
  py_int tweet_id = Ok key ->
  tweet_cache http !! key = Some tweet ->
  py_get event_payload "timestamp_ms" VNone = Ok timestamp_ms ->
  py_int timestamp_ms = Ok ts ->
  exists http' : HTTPClient,
    parse_tweet_delete tweet_payload http = (Ok VNone, http') /\
    tweet_cache http' !! key = None /\
    (forall k : Z, k <> key -> tweet_cache http' !! k = tweet_cache http !! k) /\
    dispatches http'
    = dispatches http ++ [("tweet_delete", ATweet (set_deleted_timestamp tweet ts))].
Proof.
  intros Hevents Hfirst Hstatus Hid Hkey Hcache Hts Hint.
  eexists. split.
  - by eapply tweet_delete_cached.
  - simpl. split_and!; [apply lookup_delete_eq | | done].
    intros k Hk. by apply lookup_delete_ne.
Qed.

(** X13. When the deleted tweet is in the cache but the event's
    [timestamp_ms] is not something [int] accepts, [parse_tweet_delete]
    raises the conversion error after having removed the tweet from the
    cache, and nothing is dispatched. *)
Theorem tweet_delete_cached_bad_timestamp
    (tweet_payload events event_payload status tweet_id timestamp_ms : value)
    (key : Z) (e : exn) (tweet : Tweet) (http : HTTPClient) :
  py_get tweet_payload "tweet_delete_events" VNone = Ok events ->
  py_first events = Ok event_payload ->
  py_get event_payload "status" VNone = Ok status ->
  py_get status "id" VNone = Ok tweet_id ->
  py_int tweet_id = Ok key ->
  tweet_cache http !! key = Some tweet ->
  py_get event_payload "timestamp_ms" VNone = Ok timestamp_ms ->
  py_int timestamp_ms = Raise e ->
  parse_tweet_delete tweet_payload http
  = (Raise e,
     EventParser.mkHTTPClient Tweet (delete key (tweet_cache http)) (dispatches http)).
Proof.
  intros Hevents Hfirst Hstatus Hid Hkey Hcache Hts Hint.
  unfold EventParser.parse_tweet_delete, bind, lift, get, modify, ret.
  rewrite Hevents, Hfirst, Hstatus, Hid, Hkey, Hcache. simpl.
  rewrite Hts, Hint. reflexivity.
Qed.

(** X14. A tweet announced by [parse_tweet_create] and then deleted: when the
    create delivery's first event parses to [parsed], and the delete event
    names the id of the tweet built from it, the two calls dispatch that
    tweet on ["tweet_create"] and then, stamped, on ["tweet_delete"], and the
    cache ends up as it was, without that id. *)
Theorem tweet_create_then_delete
    (created events event parsed event' : value)
    (deleted events_d event_d status tweet_id timestamp_ms : value) (ts : Z)
    (http : HTTPClient) :
  py_get created "tweet_create_events" VNone = Ok events ->
  py_first events = Ok event ->
  PayloadParser.parse_tweet_payload event = (Ok parsed, event') ->
  py_get deleted "tweet_delete_events" VNone = Ok events_d ->
  py_first events_d = Ok event_d ->
  py_get event_d "status" VNone = Ok status ->
  py_get status "id" VNone = Ok tweet_id ->
  py_int tweet_id = Ok (Tweet_id (Tweet_new parsed)) ->
  py_get event_d "timestamp_ms" VNone = Ok timestamp_ms ->
  py_int timestamp_ms = Ok ts ->
  exists (created' : value) (http1 : HTTPClient),
    parse_tweet_create (created, http) = (Ok VNone, (created', http1)) /\
    tweet_cache http1 !! Tweet_id (Tweet_new parsed) = Some (Tweet_new parsed) /\
    parse_tweet_delete deleted http1
    = (Ok VNone,
       EventParser.mkHTTPClient Tweet
         (delete (Tweet_id (Tweet_new parsed)) (tweet_cache http))
         (dispatches http
            ++ [("tweet_create", ATweet (Tweet_new parsed));
                ("tweet_delete", ATweet (set_deleted_timestamp (Tweet_new parsed) ts))])).
Proof.
  intros Hevents Hfirst Hparse Hevents_d Hfirst_d Hstatus Hid Hkey Hts Hint.
  unfold EventParser.parse_tweet_create, bind, reads, lift, modify, ret,
    EventParser.dispatch.
  rewrite Hevents. simpl. rewrite Hfirst. simpl. rewrite Hparse. simpl.
  eexists _, _. split; [reflexivity|]. split.
  - simpl. apply lookup_insert_eq.
  - erewrite tweet_delete_cached; eauto.
    + simpl. by rewrite delete_insert_eq, <- app_assoc.
    + simpl. apply lookup_insert_eq.
Qed.
End event_parser_more.

Lemma tweet_delete_cached_effect_witness :
  exists http' : EventParser.HTTPClient (value * option Z),
    EventParser.parse_tweet_delete _ stamp delete_42 cached_42 = (Ok VNone, http') /\
    EventParser.tweet_cache _ http' !! 42 = None /\
    (forall k : Z, k <> 42 ->
       EventParser.tweet_cache _ http' !! k = EventParser.tweet_cache _ cached_42 !! k) /\
    EventParser.dispatches _ http'
    = EventParser.dispatches _ cached_42
      ++ [("tweet_delete", EventParser.ATweet _ (stamp (fresh_tweet (VStr "t")) 1000))].
Proof.
  apply (tweet_delete_cached_effect stamp delete_42
           (VList [VDict [("status", VDict [("id", VStr "42"); ("user_id", VStr "1")]);
                          ("timestamp_ms", VStr "1000")]])
           (VDict [("status", VDict [("id", VStr "42"); ("user_id", VStr "1")]);
                   ("timestamp_ms", VStr "1000")])
           (VDict [("id", VStr "42"); ("user_id", VStr "1")])
           (VStr "42") (VStr "1000") 42 1000 (fresh_tweet (VStr "t")) cached_42);
    vm_compute; reflexivity.
Defined.

Lemma tweet_delete_cached_bad_timestamp_witness :
  EventParser.parse_tweet_delete _ stamp delete_42_unstamped cached_42
  = (Raise TypeError,
     EventParser.mkHTTPClient _
       (delete 42 (EventParser.tweet_cache _ cached_42))
       (EventParser.dispatches _ cached_42)).
Proof.
  apply (tweet_delete_cached_bad_timestamp stamp delete_42_unstamped
           (VList [VDict [("status", VDict [("id", VStr "42")])]])
           (VDict [("status", VDict [("id", VStr "42")])])
           (VDict [("id", VStr "42")])
           (VStr "42") VNone 42 TypeError (fresh_tweet (VStr "t")) cached_42);
    vm_compute; reflexivity.
Defined.

Lemma tweet_create_then_delete_witness :
  exists (created' : value) (http1 : EventParser.HTTPClient (value * option Z)),
    EventParser.parse_tweet_create _ fresh_tweet payload_id (create_42, idle_client)
    = (Ok VNone, (created', http1)) /\
    EventParser.tweet_cache _ http1 !! payload_id (fresh_tweet parsed_42)
    = Some (fresh_tweet parsed_42) /\
    EventParser.parse_tweet_delete _ stamp delete_42 http1
    = (Ok VNone,
       EventParser.mkHTTPClient _
         (delete (payload_id (fresh_tweet parsed_42)) (EventParser.tweet_cache _ idle_client))
         (EventParser.dispatches _ idle_client
            ++ [("tweet_create", EventParser.ATweet _ (fresh_tweet parsed_42));
                ("tweet_delete",
                 EventParser.ATweet _ (stamp (fresh_tweet parsed_42) 1000))])).
Proof.
  apply (tweet_create_then_delete stamp fresh_tweet payload_id
           create_42
           (VList [VDict [("id", VStr "42");
                          ("entities", VDict [("user_mentions", VList [])])]])
           (VDict [("id", VStr "42"); ("entities", VDict [("user_mentions", VList [])])])
           parsed_42 parsed_42
           delete_42
           (VList [VDict [("status", VDict [("id", VStr "42"); ("user_id", VStr "1")]);
                          ("timestamp_ms", VStr "1000")]])
           (VDict [("status", VDict [("id", VStr "42"); ("user_id", VStr "1")]);
                   ("timestamp_ms", VStr "1000")])
           (VDict [("id", VStr "42"); ("user_id", VStr "1")])
           (VStr "42") (VStr "1000") 1000 idle_client);
    vm_compute; reflexivity.
Defined.

(** The event inside the delivery is rewritten by [parse_tweet_create]. *)
Example tweet_create_rewrites_delivery :
  fst (snd (EventParser.parse_tweet_create _ fresh_tweet payload_id
              (create_42, idle_client)))
  = VDict [("for_user_id", VStr "1"); ("tweet_create_events", VList [parsed_42])].
Proof. vm_compute. reflexivity. Qed.

(** ** Further properties of the pagination cursors *)

Lemma by_id_app {Item : Type} (item_id : Item -> Z) (items : list Item)
    (d : list (Z * Item)) :
  NoDup (d.*1 ++ (item_id <$> items)) ->
  foldl (fun d obj => dict_set d (item_id obj) obj) d items
  = d ++ ((fun obj => (item_id obj, obj)) <$> items).
Proof.
  revert d. induction items as [|x items IH]; intros d Hnd; simpl.
  - by rewrite app_nil_r.
  - assert (item_id x ∉ d.*1) as Hfresh.
    { apply NoDup_app in Hnd as (_ & Hdis & _). intros Hin.
      apply (Hdis _ Hin). simpl. left. }
    rewrite dict_set_fresh by done. rewrite IH.
    + by rewrite <- app_assoc.
    + rewrite fmap_app. simpl. rewrite <- app_assoc. exact Hnd.
Qed.

Lemma by_id_values {Item : Type} (item_id : Item -> Z) (items : list Item) :
  NoDup (item_id <$> items) -> dict_values (Pagination.by_id item_id items) = items.
Proof.
  intros Hnd. unfold Pagination.by_id, dict_values.
  rewrite by_id_app by done. simpl.
  rewrite <- list_fmap_compose. simpl. apply list_fmap_id.
Qed.

Section pagination_more.
Context {Item : Type}.
Variable item_type : value -> Item.
Variable item_id : Item -> Z.
Variable item_eqb : Item -> Item -> bool.
Variable request : list http_request -> http_request -> result value.

Local Abbreviation session := (UserPagination.session (Item := Item)).
Local Abbreviation self := (UserPagination.self (Item := Item)).
Local Abbreviation sent := (UserPagination.sent (Item := Item)).
Local Abbreviation content := (Pagination.content item_type).
Local Abbreviation by_id := (Pagination.by_id item_id).
Local Abbreviation __init__ := (Pagination.__init__ item_type item_id).
Local Abbreviation get_page_content := (Pagination.get_page_content (Item := Item)).
Local Abbreviation page_turn := (turn_page item_type item_id item_eqb).
Local Abbreviation next_page := (UserPagination.next_page item_type item_id item_eqb request).
Local Abbreviation previous_page :=
  (UserPagination.previous_page item_type item_id item_eqb request).
Local Abbreviation one_call := (do_call item_type item_id item_eqb request).
Local Abbreviation run_calls := (run item_type item_id item_eqb request).
Local Abbreviation cache_now := (cache_after item_id item_eqb).
Local Abbreviation step_page := (page_step item_type item_id item_eqb request).

Ltac unfold_monad :=
  unfold bind, reads, updates, on_self, modify, lift, ret, raise, get,
    http_client_request, first_item.

Lemma do_call_step (c : call) (s : session) :
  one_call c s = step_page (token_of c (self s)) (step_of c) s.
Proof. destruct c; simpl; [apply next_page_step | apply previous_page_step]. Qed.

(** What [turn_page] leaves alone, and what it may do to the cache. *)
Lemma turn_page_frame (step : Z) (res : value) (s : session) :
  let r := page_turn step res s in
  sent (snd r) = sent s /\
  endpoint_request (self (snd r)) = endpoint_request (self s) /\
  _params (self (snd r)) = _params (self s) /\
  (pages_cache (self (snd r)) = pages_cache (self s) \/
   exists v, pages_cache (self (snd r))
             = <[ Z.of_nat (size (pages_cache (self s))) + 1 := v ]> (pages_cache (self s))).
Proof.
  unfold turn_page. unfold_monad.
  destruct s as [log p]. simpl.
  repeat (case_match; simpl in *; simplify_eq).
  all: split_and!; eauto.
Qed.

Lemma page_step_frame (token : value) (step : Z) (s : session) :
  let r := step_page token step s in
  endpoint_request (self (snd r)) = endpoint_request (self s) /\
  (pages_cache (self (snd r)) = pages_cache (self s) \/
   exists v, pages_cache (self (snd r))
             = <[ Z.of_nat (size (pages_cache (self s))) + 1 := v ]> (pages_cache (self s))) /\
  (sent (snd r) = sent s \/
   exists params,
     truthy token = true /\
     py_setitem (_params (self s)) "pagination_token" token = Ok params /\
     sent (snd r) = sent s ++ [page_request (endpoint_request (self s)) params]).
Proof.
  unfold page_step.
  destruct (truthy token) eqn:Htok; simpl; [|by split_and!; auto].
  destruct (py_setitem _ _ _) as [params|e] eqn:Hparams; simpl; [|by split_and!; auto].
  destruct (request _ _) as [res|e]; simpl; [|by split_and!; eauto].
  destruct (truthy res); simpl; [|by split_and!; eauto].
  match goal with |- context [page_turn step res ?s1] =>
    destruct (turn_page_frame step res s1) as (Hsent & Hend & _ & Hcache) end.
  simpl in *. split_and!; auto. right. exists params. by rewrite Hsent.
Qed.

Lemma run_snoc (calls : list call) (c : call) (s : session) :
  run_calls (calls ++ [c]) s = snd (one_call c (run_calls calls s)).
Proof. unfold run. by rewrite foldl_app. Qed.

(** X15. When [previous_page] returns, the previous token was present and the
    transport answered with a payload; the page number has gone down by one;
    the payload, the meta and both tokens are those of the response; and the
    page cache has gained an entry under the key [len(pages_cache) + 1] (not
    under the new page number) exactly when the first item of the new content
    differs from the first item of the content before the call. *)
Theorem previous_page_effect (s s' : session) :
  cache_numbered (pages_cache (self s)) ->
  previous_page s = (Ok tt, s') ->
  exists (params res : value) (before after : Item)
         (others_before others_after : list Item),
    truthy (_previous_token (self s)) = true /\
    py_setitem (_params (self s)) "pagination_token" (_previous_token (self s))
    = Ok params /\
    request (sent s) (page_request (endpoint_request (self s)) params) = Ok res /\
    truthy res = true /\
    sent s' = sent s ++ [page_request (endpoint_request (self s)) params] /\
    content (self s) = Ok (before :: others_before) /\
    content (self s') = Ok (after :: others_after) /\
    _current_page_number (self s') = _current_page_number (self s) - 1 /\
    original_payload (self s') = res /\
    py_get res "data" VNone = Ok (_payload (self s')) /\
    py_get res "meta" VNone = Ok (_meta (self s')) /\
    py_get (_meta (self s')) "next_token" VNone = Ok (_next_token (self s')) /\
    py_get (_meta (self s')) "previous_token" VNone = Ok (_previous_token (self s')) /\
    pages_cache (self s) !! (Z.of_nat (size (pages_cache (self s))) + 1) = None /\
    pages_cache (self s')
    = if item_eqb before after then pages_cache (self s)
      else <[ Z.of_nat (size (pages_cache (self s))) + 1
              := by_id (after :: others_after) ]> (pages_cache (self s)).
Proof.
  intros Hnum. rewrite previous_page_step. unfold page_step.
  destruct (truthy (_previous_token (self s))) eqn:Htok; [|discriminate].
  destruct (py_setitem _ _ _) as [params|e] eqn:Hparams; [|discriminate].
  destruct (request _ _) as [res|e] eqn:Hres; [|discriminate].
  destruct (truthy res) eqn:Htruthy; [|discriminate].
  intros (data & meta & nt & pt & before & after & ob & oa
          & Hbefore & Hdata & Hmeta & Hnt & Hpt & Hafter & ->)%turn_page_ok.
  exists params, res, before, after, ob, oa. simpl in *.
  split_and!; try done. by apply cache_numbered_fresh.
Qed.

(** X16. A page that is in the cache stays there: along every run of
    [next_page] and [previous_page] calls, whether they return or raise, an
    entry of a numbered cache is neither removed nor replaced, so
    [get_page_content] keeps answering the same for it. *)
Theorem pages_cache_kept (calls : list call) (s : session) (n : Z) :
  cache_numbered (pages_cache (self s)) ->
  is_Some (pages_cache (self s) !! n) ->
  pages_cache (self (run_calls calls s)) !! n = pages_cache (self s) !! n /\
  get_page_content (self (run_calls calls s)) n = get_page_content (self s) n.
Proof.
  intros Hnum Hn.
  assert (pages_cache (self (run_calls calls s)) !! n = pages_cache (self s) !! n) as Hkept.
  { induction calls as [|c calls IH] using rev_ind; [done|].
    pose proof (run_cache_numbered item_type item_id item_eqb request calls s Hnum) as Hnum'.
    rewrite run_snoc, do_call_step.
    destruct (page_step_frame (token_of c (self (run_calls calls s))) (step_of c)
                (run_calls calls s)) as (_ & [Hc|[v Hc]] & _);
      simpl in Hc; rewrite Hc; [done|].
    rewrite <- IH. apply lookup_insert_ne. intros <-.
    apply cache_numbered_fresh in Hnum'. rewrite Hnum' in IH. rewrite <- IH in Hn.
    by destruct Hn. }
  split; [done|]. unfold Pagination.get_page_content. by rewrite Hkept.
Qed.

(** X17. From construction on, whatever calls are made, [get_page_content]
    answers [None] for every page number below 1 (0 in particular) and for
    every page number above the number of cached pages. *)
Theorem get_page_content_out_of_range (data : value) (endpoint : string) (params : value)
    (p0 : Pagination.t) (calls : list call) (log : list http_request) (n : Z) :
  __init__ data endpoint params = Ok p0 ->
  n < 1 \/ Z.of_nat (size (pages_cache (self (run_calls calls (mkSession log p0))))) < n ->
  get_page_content (self (run_calls calls (mkSession log p0))) n = None.
Proof.
  intros Hinit Hn.
  pose proof (run_cache_numbered item_type item_id item_eqb request calls
                (mkSession log p0) (init_cache_numbered _ _ _ _ _ _ Hinit)) as Hnum.
  unfold Pagination.get_page_content.
  destruct (pages_cache _ !! n) as [d|] eqn:Hlook; [|done].
  assert (is_Some (pages_cache (self (run_calls calls (mkSession log p0))) !! n)) as Hs
    by eauto.
  apply Hnum in Hs. lia.
Qed.

(** X18. A cursor that has just been built holds one page: page 1 is the
    content of the first response when the items have distinct ids (and
    [None] when the response has no item); every other page is [None]. *)
Theorem init_get_page_content (data : value) (endpoint : string) (params : value)
    (p : Pagination.t) :
  __init__ data endpoint params = Ok p ->
  exists items : list Item,
    content p = Ok items /\
    (NoDup (item_id <$> items) ->
     get_page_content p 1 = match items with [] => None | _ => Some items end) /\
    (forall n : Z, n <> 1 -> get_page_content p n = None).
Proof.
  intros (payload & meta & nt & pt & raw & _ & _ & _ & _ & Hraw & ->)%init_ok.
  exists (item_type <$> raw). unfold Pagination.content, Pagination.get_page_content.
  simpl. rewrite Hraw. simpl. split_and!; [done| |].
  - intros Hnd. rewrite lookup_singleton, decide_True by done.
    pose proof (by_id_values item_id _ Hnd) as Hvals.
    destruct (item_type <$> raw) as [|x items] eqn:Hitems; [done|].
    destruct (by_id (x :: items)) as [|kv d] eqn:Hby; [discriminate Hvals|].
    by rewrite Hvals.
  - intros n Hn. rewrite lookup_singleton, decide_False; done.
Qed.

(** X19. When the transport raises, or answers with nothing ([None], an empty
    mapping, ...), the call raises what the transport raised, respectively
    [NoPageAvailable]; the request has been made and [_params] now carries
    the token, everything else is as before the call. *)
Theorem fetch_failure (c : call) (s : session) (params : value) :
  truthy (token_of c (self s)) = true ->
  py_setitem (_params (self s)) "pagination_token" (token_of c (self s)) = Ok params ->
  (forall res : value,
     request (sent s) (page_request (endpoint_request (self s)) params) = Ok res ->
     truthy res = false) ->
  one_call c s
  = (match request (sent s) (page_request (endpoint_request (self s)) params) with
     | Ok _ => Raise NoPageAvailable
     | Raise e => Raise e
     end,
     mkSession (sent s ++ [page_request (endpoint_request (self s)) params])
               (set_params params (self s))).
Proof.
  intros Htok Hparams Hres. rewrite do_call_step. unfold page_step.
  rewrite Htok, Hparams.
  destruct (request _ _) as [res|e]; [|done].
  by rewrite (Hres res eq_refl).
Qed.

(** X20. A cursor whose [_params] is not a mapping (as when it was built
    without the [params] keyword, which leaves [None]) cannot step: with a
    token present the call raises [TypeError] before any request is made,
    and the session is as before. *)
Theorem params_not_mapping (c : call) (s : session) :
  truthy (token_of c (self s)) = true ->
  is_dict (_params (self s)) = false ->
  one_call c s = (Raise TypeError, s).
Proof.
  intros Htok Hparams. rewrite do_call_step. unfold page_step. rewrite Htok.
  by destruct (_params (self s)).
Qed.

Lemma run_endpoint (calls : list call) (s : session) :
  endpoint_request (self (run_calls calls s)) = endpoint_request (self s).
Proof.
  induction calls as [|c calls IH] using rev_ind; [done|].
  rewrite run_snoc, do_call_step.
  destruct (page_step_frame (token_of c (self (run_calls calls s))) (step_of c)
              (run_calls calls s)) as (Hend & _).
  simpl in Hend. by rewrite Hend.
Qed.

(** X21. Along every run of calls the cursor makes at most one request per
    call, and each of them is a [GET] on version 2 of the endpoint the cursor
    started with, authenticated, with a (truthy) token among its parameters;
    nothing else is ever requested. *)
Theorem requests_of_a_run (calls : list call) (s : session) :
  exists new : list http_request,
    sent (run_calls calls s) = sent s ++ new /\
    (length new <= length calls)%nat /\
    Forall (cursor_request (endpoint_request (self s))) new.
Proof.
  induction calls as [|c calls IH] using rev_ind.
  - exists []. simpl. split_and!; [by rewrite app_nil_r|done|constructor].
  - destruct IH as (new & Hsent & Hlen & Hall).
    rewrite run_snoc, do_call_step.
    destruct (page_step_frame (token_of c (self (run_calls calls s))) (step_of c)
                (run_calls calls s)) as (_ & _ & [Hs|(params & Htok & Hparams & Hs)]);
      simpl in Hs; rewrite Hs, Hsent.
    + exists new. split_and!; [done| |done]. rewrite length_app. simpl. lia.
    + rewrite run_endpoint.
      exists (new ++ [page_request (endpoint_request (self s)) params]).
      split_and!; [by rewrite app_assoc| |].
      * rewrite !length_app. simpl. lia.
      * apply Forall_app. split; [done|]. constructor; [|constructor].
        split; [done|]. simpl. exists (token_of c (self (run_calls calls s))).
        split; [|done].
        destruct (_params (self (run_calls calls s))); simpl in Hparams; try discriminate.
        injection Hparams as <-. simpl. by rewrite dict_get_set_eq.
Qed.

(** X22. Take a cursor whose current content can be read, whose token is
    present and whose [_params] is a mapping, and let the transport answer
    with a mapping whose [meta] is a mapping but whose [data] cannot be
    iterated (it is absent, say, as on an empty last page).  Then the call
    raises after the cursor has moved: it raises [TypeError] when the current
    page has an item and [IndexError] when the current page is empty, and in
    both cases the request has been made, [_params] carries the token, the
    page number has changed by one, the payload, the meta and the tokens are
    those of the response, and the cache is as it was. *)
Theorem response_without_items (c : call) (s : session)
    (params res data meta next_token previous_token : value)
    (previous_content : list Item) (e : exn) :
  truthy (token_of c (self s)) = true ->
  py_setitem (_params (self s)) "pagination_token" (token_of c (self s)) = Ok params ->
  request (sent s) (page_request (endpoint_request (self s)) params) = Ok res ->
  truthy res = true ->
  content (self s) = Ok previous_content ->
  py_get res "data" VNone = Ok data ->
  py_get res "meta" VNone = Ok meta ->
  py_get meta "next_token" VNone = Ok next_token ->
  py_get meta "previous_token" VNone = Ok previous_token ->
  py_iter data = Raise e ->
  one_call c s
  = (match previous_content with
     | [] => Raise IndexError
     | _ :: _ => Raise TypeError
     end,
     mkSession (sent s ++ [page_request (endpoint_request (self s)) params])
       (Pagination.mk res data meta next_token previous_token 0
          (_paginate_over (self s)) (_current_page_number (self s) + step_of c)
          params (endpoint_request (self s)) (pages_cache (self s)))).
Proof.
  intros Htok Hparams Hres Htruthy Hbefore Hdata Hmeta Hnt Hpt Hraw.
  rewrite do_call_step. unfold page_step. rewrite Htok, Hparams, Hres, Htruthy.
  unfold turn_page. unfold_monad. destruct s as [log p].
  unfold Pagination.content in *. simpl in *.
  rewrite Hbefore. simpl. rewrite Hdata. simpl. rewrite Hmeta. simpl.
  rewrite Hnt. simpl. rewrite Hpt. simpl.
  destruct previous_content as [|before others]; simpl; [reflexivity|].
  rewrite Hraw. simpl.
  by rewrite (py_iter_raises _ _ Hraw).
Qed.

Lemma page_step_dead (token : value) (step : Z) (s : session) (e : exn) :
  py_iter (_payload (self s)) = Raise e ->
  let r := step_page token step s in
  (exists e', fst r = Raise e') /\
  exists params, self (snd r) = set_params params (self s).
Proof.
  intros Hdead. unfold page_step.
  assert (self s = set_params (_params (self s)) (self s)) as Hsame
    by by destruct (self s).
  destruct (truthy token); simpl; [|by eauto].
  destruct (py_setitem _ _ _) as [params|e1]; simpl; [|by eauto].
  destruct (request _ _) as [res|e1]; simpl; [|by eauto].
  destruct (truthy res); simpl; [|by eauto].
  unfold turn_page. unfold_monad. simpl.
  unfold Pagination.content. simpl. rewrite Hdead. simpl. eauto.
Qed.

(** X23. A cursor whose payload cannot be iterated is dead: no call on it
    ever returns, in either direction, and apart from [_params] it stays as it
    is, page number and tokens included. *)
Theorem dead_cursor (calls : list call) (s : session) (e : exn) :
  py_iter (_payload (self s)) = Raise e ->
  (exists params, self (run_calls calls s) = set_params params (self s)) /\
  forall c : call, exists e', fst (one_call c (run_calls calls s)) = Raise e'.
Proof.
  intros Hdead.
  assert (exists params, self (run_calls calls s) = set_params params (self s)) as Hself.
  { induction calls as [|c calls IH] using rev_ind.
    - exists (_params (self s)). simpl. by destruct (self s).
    - destruct IH as [params IH]. rewrite run_snoc, do_call_step.
      destruct (page_step_dead (token_of c (self (run_calls calls s))) (step_of c)
                  (run_calls calls s) e) as (_ & params' & Hs).
      { by rewrite IH. }
      simpl in Hs. rewrite Hs, IH. by exists params'. }
  split; [done|]. intros c. destruct Hself as [params Hself].
  rewrite do_call_step.
  destruct (page_step_dead (token_of c (self (run_calls calls s))) (step_of c)
              (run_calls calls s) e) as (He & _); [by rewrite Hself|done].
Qed.

End pagination_more.

Lemma previous_page_effect_witness :
  exists (params res : value) (before after : value)
         (others_before others_after : list value),
    truthy (_previous_token (self start_2)) = true /\
    py_setitem (_params (self start_2)) "pagination_token" (_previous_token (self start_2))
    = Ok params /\
    scripted (sent start_2) (page_request (endpoint_request (self start_2)) params)
    = Ok res /\
    truthy res = true /\
    sent (snd (stub_previous_page start_2))
    = sent start_2 ++ [page_request (endpoint_request (self start_2)) params] /\
    content id (self start_2) = Ok (before :: others_before) /\
    content id (self (snd (stub_previous_page start_2))) = Ok (after :: others_after) /\
    _current_page_number (self (snd (stub_previous_page start_2)))
    = _current_page_number (self start_2) - 1 /\
    original_payload (self (snd (stub_previous_page start_2))) = res /\
    py_get res "data" VNone = Ok (_payload (self (snd (stub_previous_page start_2)))) /\
    py_get res "meta" VNone = Ok (_meta (self (snd (stub_previous_page start_2)))) /\
    py_get (_meta (self (snd (stub_previous_page start_2)))) "next_token" VNone
    = Ok (_next_token (self (snd (stub_previous_page start_2)))) /\
    py_get (_meta (self (snd (stub_previous_page start_2)))) "previous_token" VNone
    = Ok (_previous_token (self (snd (stub_previous_page start_2)))) /\
    pages_cache (self start_2) !! (Z.of_nat (size (pages_cache (self start_2))) + 1) = None /\
    pages_cache (self (snd (stub_previous_page start_2)))
    = if same_id before after then pages_cache (self start_2)
      else <[ Z.of_nat (size (pages_cache (self start_2))) + 1
              := by_id raw_id (after :: others_after) ]> (pages_cache (self start_2)).
Proof.
  apply (previous_page_effect id raw_id same_id scripted start_2
           (snd (stub_previous_page start_2))).
  - apply (init_cache_numbered id raw_id page_2 "users/1/followers" stub_params).
    vm_compute. reflexivity.
  - vm_compute. reflexivity.
Defined.

Lemma pages_cache_kept_witness :
  pages_cache (self (run id raw_id same_id scripted [Next; Previous] start_1)) !! 1
  = pages_cache (self start_1) !! 1 /\
  get_page_content (self (run id raw_id same_id scripted [Next; Previous] start_1)) 1
  = get_page_content (self start_1) 1.
Proof.
  apply (pages_cache_kept id raw_id same_id scripted [Next; Previous] start_1 1).
  - apply (init_cache_numbered id raw_id page_1 "users/1/followers" stub_params).
    vm_compute. reflexivity.
  - vm_compute. eauto.
Defined.

Lemma get_page_content_out_of_range_witness :
  get_page_content (self (run id raw_id same_id scripted [Next] (mkSession [] cursor_1))) 0
  = None.
Proof.
  apply (get_page_content_out_of_range id raw_id same_id scripted
           page_1 "users/1/followers" stub_params cursor_1 [Next] [] 0).
  - vm_compute. reflexivity.
  - left. lia.
Defined.

Lemma init_get_page_content_witness :
  exists items : list value,
    content id cursor_1 = Ok items /\
    (NoDup (raw_id <$> items) ->
     get_page_content cursor_1 1 = match items with [] => None | _ => Some items end) /\
    (forall n : Z, n <> 1 -> get_page_content cursor_1 n = None).
Proof.
  apply (init_get_page_content id raw_id page_1 "users/1/followers" stub_params cursor_1).
  vm_compute. reflexivity.
Defined.

Lemma fetch_failure_witness :
  do_call id raw_id same_id silent Next start_1
  = (Raise NoPageAvailable,
     mkSession [page_request "users/1/followers" params_t2] (set_params params_t2 cursor_1)).
Proof.
  apply (fetch_failure id raw_id same_id silent Next start_1 params_t2).
  - reflexivity.
  - reflexivity.
  - intros res Hres. vm_compute in Hres. injection Hres as <-. reflexivity.
Defined.

Lemma params_not_mapping_witness :
  do_call id raw_id same_id scripted Next (mkSession [] cursor_bare)
  = (Raise TypeError, mkSession [] cursor_bare).
Proof.
  apply (params_not_mapping id raw_id same_id scripted Next (mkSession [] cursor_bare));
    reflexivity.
Defined.

Lemma response_without_items_witness :
  do_call id raw_id same_id ending Next start_1
  = (Raise TypeError, mkSession [page_request "users/1/followers" params_t2] cursor_ended) /\
  do_call id raw_id same_id ending Next (mkSession [] cursor_empty)
  = (Raise IndexError, mkSession [page_request "users/1/followers" params_t2] cursor_ended).
Proof.
  split.
  - apply (response_without_items id raw_id same_id ending Next start_1
             params_t2 last_page VNone (VDict [("result_count", VInt 0)]) VNone VNone
             [VDict [("id", VStr "1")]; VDict [("id", VStr "2")]] TypeError);
      reflexivity.
  - apply (response_without_items id raw_id same_id ending Next (mkSession [] cursor_empty)
             params_t2 last_page VNone (VDict [("result_count", VInt 0)]) VNone VNone
             [] TypeError);
      reflexivity.
Defined.

Lemma dead_cursor_witness :
  (exists params : value,
     self (run id raw_id same_id scripted [Next; Previous] (mkSession [] cursor_ended))
     = set_params params cursor_ended) /\
  forall c : call,
    exists e' : exn,
      fst (do_call id raw_id same_id scripted c
             (run id raw_id same_id scripted [Next; Previous] (mkSession [] cursor_ended)))
      = Raise e'.
Proof.
  apply (dead_cursor id raw_id same_id scripted [Next; Previous]
           (mkSession [] cursor_ended) TypeError).
  reflexivity.
Defined.

(** A cursor built from a page without [data], as the API sends it for an
    empty listing, is not built at all. *)
Example init_without_data : stub_init last_page = Raise TypeError.
Proof. vm_compute. reflexivity. Qed.

(** ** utils.py *)

Lemma substring_past_end (n m : nat) (s : string) :
  (String.length s <= n)%nat -> substring n m s = "".
Proof.
  revert n. induction s as [|c s IH]; intros [|n] Hlen; simpl in *; try lia.
  - by destruct m.
  - done.
  - apply IH. lia.
Qed.

Lemma prefix_length (p s : string) :
  String.prefix p s = true -> (String.length p <= String.length s)%nat.
Proof.
  revert s. induction p as [|a p IH]; intros [|b s]; simpl; try lia; try discriminate.
  destruct (ascii_dec a b); [|discriminate]. intros Hp%IH. lia.
Qed.

Lemma prefix_too_long (p s : string) :
  (String.length s < String.length p)%nat -> String.prefix p s = false.
Proof.
  intros Hlen. destruct (String.prefix p s) eqn:Hp; [|done].
  apply prefix_length in Hp. lia.
Qed.

(** X24. Fewer than six bytes are never recognised: [guess_mimetype] answers
    ["text/plain"] (the slice [byts[6:10]] is empty and no GIF signature
    fits). *)
Theorem guess_mimetype_short (byts : string) :
  (String.length byts < 6)%nat -> guess_mimetype byts = "text/plain".
Proof.
  intros Hlen. unfold guess_mimetype.
  rewrite substring_past_end by lia.
  rewrite !prefix_too_long by (simpl; lia). reflexivity.
Qed.

Lemma guess_mimetype_short_witness : guess_mimetype "GIF89" = "text/plain".
Proof. apply (guess_mimetype_short "GIF89"). simpl. lia. Defined.

Lemma substring_of_head (n m k : nat) (s : string) :
  (n + m <= k)%nat -> substring n m (substring 0 k s) = substring n m s.
Proof.
  revert m k s. induction n as [|n IHn]; intros m.
  - induction m as [|m IHm]; intros k s Hk.
    + by destruct (substring 0 k s), s.
    + destruct k as [|k]; [lia|]. destruct s as [|c s]; simpl; [done|].
      f_equal. apply IHm. lia.
  - intros k s Hk. destruct k as [|k]; [lia|]. destruct s as [|c s]; simpl; [done|].
    apply IHn. lia.
Qed.

Lemma prefix_of_head (p : string) (k : nat) (s : string) :
  (String.length p <= k)%nat -> String.prefix p (substring 0 k s) = String.prefix p s.
Proof.
  revert k s. induction p as [|a p IH]; intros k s Hk; simpl in *.
  { by destruct (substring 0 k s), s. }
  destruct k as [|k]; [lia|]. destruct s as [|b s]; simpl; [done|].
  destruct (ascii_dec a b); [|done]. apply IH. lia.
Qed.

(** X25. [guess_mimetype] looks at the first ten bytes only. *)
Theorem guess_mimetype_first_ten (byts : string) :
  guess_mimetype (substring 0 10 byts) = guess_mimetype byts.
Proof.
  unfold guess_mimetype.
  rewrite substring_of_head by lia.
  by rewrite !prefix_of_head by (simpl; lia).
Qed.

Lemma replace_char_no_space (s : string) : has_space (replace_char " " "%20" s) = false.
Proof.
  induction s as [|c s IH]; simpl; [done|].
  destruct (Ascii.eqb c " ") eqn:Hc; simpl; [done|]. by rewrite Hc.
Qed.

Lemma has_space_app (a b : string) :
  has_space (a ++ b)%string = has_space a || has_space b.
Proof.
  induction a as [|c a IH]; simpl; [done|]. rewrite IH. by rewrite orb_assoc.
Qed.

Lemma replace_char_empty (s : string) :
  String.eqb (replace_char " " "%20" s) "" = String.eqb s "".
Proof. destruct s as [|c s]; simpl; [done|]. by destruct (Ascii.eqb c " "). Qed.

(** X26. [compose_tweet] returns for every text: the bare link for the empty
    text, and otherwise the link with the text after [?text=], every space
    replaced by [%20]; the link it returns never has a space in it. *)
Theorem compose_tweet_link (text : string) :
  exists url : string,
    compose_tweet (VStr text) = Ok url /\
    url = (if String.eqb text "" then "https://twitter.com/intent/tweet"
           else "https://twitter.com/intent/tweet?text="
                ++ replace_char " " "%20" text)%string /\
    has_space url = false.
Proof.
  unfold compose_tweet. simpl.
  destruct (String.eqb text "") eqn:Hempty; simpl.
  - rewrite Hempty. simpl. eauto.
  - rewrite replace_char_empty, Hempty. simpl.
    eexists. split_and!; [reflexivity|reflexivity|].
    apply replace_char_no_space.
Qed.

(** X27. With a [str] for the action and a [str] or [None] for the text,
    [compose_user_action] returns and never raises.  What it returns is a
    [TypeError] instance (returned, not raised) exactly when the action in
    lower case is neither ["follow"] nor ["dm"]; and for ["follow"], in any
    case of the letters, the link does not depend on the text. *)
Theorem compose_user_action_outcome (user_id action : string) (text : value) :
  is_str text = true \/ text = VNone ->
  exists c : composed,
    compose_user_action user_id (VStr action) text = Ok c /\
    ((exists message, c = TypeErrorValue message) <->
     lower action <> "follow" /\ lower action <> "dm") /\
    (lower action = "follow" ->
     c = Link ("https://twitter.com/intent/user?user_id=" ++ user_id)%string).
Proof.
  intros Htext. unfold compose_user_action. simpl.
  assert (exists text', (if truthy text then py_replace text " " "%20" else Ok text)
                        = Ok text') as [text' ->].
  { destruct Htext as [Hstr| ->]; [|by eexists].
    destruct text; try discriminate. simpl. destruct (negb _); by eexists. }
  simpl.
  destruct (decide (lower action = "follow")) as [Hf|Hf].
  { rewrite Hf. simpl. eexists. split_and!; [reflexivity| |done].
    split; [by intros [? ?] | by intros [? _]]. }
  destruct (decide (lower action = "dm")) as [Hd|Hd].
  { rewrite Hd. simpl. destruct (truthy text'); eexists.
    all: split_and!; [reflexivity| |done].
    all: split; [by intros [? ?] | by intros [_ ?]]. }
  rewrite bool_decide_false.
  2:{ rewrite !elem_of_cons, elem_of_nil. tauto. }
  simpl. eexists. split_and!; [reflexivity| |done].
  split; [done | by eexists].
Qed.

Lemma compose_user_action_outcome_witness :
  exists c : composed,
    compose_user_action "5" (VStr "DM") (VStr "hi there") = Ok c /\
    ((exists message, c = TypeErrorValue message) <->
     lower "DM" <> "follow" /\ lower "DM" <> "dm") /\
    (lower "DM" = "follow" ->
     c = Link ("https://twitter.com/intent/user?user_id=" ++ "5")%string).
Proof.
  apply (compose_user_action_outcome "5" "DM" (VStr "hi there")). left. reflexivity.
Defined.

(** X28. [compose_tweet_action] checks the action in lower case but then
    uses it as it was given.  The reply link is returned for the exact text
    ["reply"] and for no other action; any other accepted action goes into
    the link unchanged, so that ["Reply"] gives [intent/Reply?tweet_id=...]. *)
Theorem compose_tweet_action_as_given (tweet_id : string) (action : value) :
  (compose_tweet_action tweet_id action
   = Ok (Link ("https://twitter.com/intent/tweet?in_reply_to=" ++ tweet_id)%string)
   <-> action = VStr "reply") /\
  (forall a : string,
     action = VStr a ->
     lower a ∈ ["retweet"; "like"; "reply"] ->
     a <> "reply" ->
     compose_tweet_action tweet_id action
     = Ok (Link ("https://twitter.com/intent/" ++ a ++ "?tweet_id=" ++ tweet_id)%string)).
Proof.
  split.
  - split; [|by intros ->].
    unfold compose_tweet_action.
    destruct action as [| | | |a| | |]; simpl; try discriminate.
    destruct (bool_decide _) eqn:Hin; simpl; [|discriminate].
    destruct (String.eqb a "reply") eqn:Ha; simpl.
    { apply String.eqb_eq in Ha. by rewrite Ha. }
    intros [= Heq]. apply bool_decide_eq_true in Hin.
    destruct a as [|c a]; simpl in *.
    + by repeat (apply elem_of_cons in Hin as [Hin|Hin]; [discriminate|]);
        apply elem_of_nil in Hin.
    + injection Heq as -> _. simpl in Hin.
      by repeat (apply elem_of_cons in Hin as [Hin|Hin]; [discriminate|]);
        apply elem_of_nil in Hin.
  - intros a -> Hin Hne. unfold compose_tweet_action. simpl.
    rewrite bool_decide_true by done. simpl.
    apply String.eqb_neq in Hne. by rewrite Hne.
Qed.

Example compose_tweet_action_Reply :
  compose_tweet_action "7" (VStr "Reply")
  = Ok (Link "https://twitter.com/intent/Reply?tweet_id=7").
Proof. reflexivity. Qed.


